(** * core/ocr_processor.py: the OCRProcessor wrapper, embedded and verified

    The module sequences calls into a PDF rasterizer (pdf2image), an image
    library (PIL) and an OCR engine (pytesseract).  Those libraries and the
    operating system are taken as an environment of oracles; what is
    embedded here is the control flow of [OCRProcessor] around them: path
    checks, the open/retry loop, early returns, the two exception handlers,
    the [with] blocks and the assembling of the result text. *)

From Stdlib Require Import List String Ascii Strings.Byte ZArith NArith Arith Lia Bool.
From Stdlib Require Decimal DecimalString DecimalFacts DecimalPos.
Import DecimalString.
Import ListNotations.

(** ** Python values: [str], [bytes], decimal formatting *)

Module PyStr.

(** A Python [str] is a sequence of Unicode code points. *)
Definition str : Type := list N.

Definition empty_str : str := [].

(** Source literals are written as Rocq strings, which are UTF-8 bytes;
    [utf8_decode] turns them into code points ([need] continuation bytes
    are still expected for the code point accumulated in [acc]). *)
Fixpoint utf8_decode (s : string) (need : nat) (acc : N) : str :=
  match s with
  | EmptyString => []
  | String a s' =>
      let b := N_of_ascii a in
      match need with
      | O =>
          if (b <? 128)%N then b :: utf8_decode s' 0 0%N
          else if (b <? 224)%N then utf8_decode s' 1 (b - 192)%N
          else if (b <? 240)%N then utf8_decode s' 2 (b - 224)%N
          else utf8_decode s' 3 (b - 240)%N
      | S O => (acc * 64 + (b - 128))%N :: utf8_decode s' 0 0%N
      | S n => utf8_decode s' n (acc * 64 + (b - 128))%N
      end
  end.

Definition py (s : string) : str := utf8_decode s 0 0%N.

(** [str(n)] for the non-negative ints the module computes itself: page
    indices, [max_retries] and lengths of lists and strings it holds. *)
Definition str_of_nat (n : nat) : str := py (NilZero.string_of_uint (Nat.to_uint n)).

(** The decimal numeral of an int, with its sign.  This is what [str(z)]
    gives when the interpreter agrees to convert [z]; whether it does
    is [OCRProcessor.str_int]. *)
Definition decimal (z : Z) : str := py (NilZero.string_of_int (Z.to_int z)).

(** The number of decimal digits of an int, the sign not counted. *)
Definition digits (z : Z) : nat := List.length (decimal (Z.abs z)).

(** [sep.join(xs)] *)
Fixpoint join (sep : str) (xs : list str) : str :=
  match xs with
  | [] => []
  | [x] => x
  | x :: xs' => x ++ sep ++ join sep xs'
  end.

(** [ch.isspace()]: the code points CPython's [_PyUnicode_IsWhitespace]
    accepts, which are the ones [str.strip()] removes. *)
Definition isspace (c : N) : bool :=
  ((9 <=? c) && (c <=? 13) || (28 <=? c) && (c <=? 32)
   || (c =? 133) || (c =? 160) || (c =? 5760)
   || (8192 <=? c) && (c <=? 8202)
   || (c =? 8232) || (c =? 8233) || (c =? 8239) || (c =? 8287)
   || (c =? 12288))%N.

Fixpoint lstrip (s : str) : str :=
  match s with
  | [] => []
  | c :: s' => if isspace c then lstrip s' else s
  end.

Definition rstrip (s : str) : str := List.rev (lstrip (List.rev s)).

(** [s.strip()] *)
Definition strip (s : str) : str := rstrip (lstrip s).

(** [s[:n]] for [n >= 0] *)
Definition slice_to (n : nat) (s : str) : str := firstn n s.

(** A Python [bytes] value. *)
Definition bytes : Type := list byte.

Definition bytes_eqb (a b : bytes) : bool :=
  if list_eq_dec Byte.byte_eq_dec a b then true else false.

(** [pat in s]: whether [pat] occurs in [s], and how many times
    (every start position counts). *)
Fixpoint starts_with (pat s : str) : bool :=
  match pat, s with
  | [], _ => true
  | _ :: _, [] => false
  | p :: pat', c :: s' => (p =? c)%N && starts_with pat' s'
  end.

Fixpoint count_occ_sub (pat s : str) : nat :=
  match s with
  | [] => if starts_with pat [] then 1 else 0
  | _ :: s' => (if starts_with pat s then 1 else 0) + count_occ_sub pat s'
  end.

Definition contains (pat s : str) : bool := negb (count_occ_sub pat s =? 0).

(** Whether the first, the last character is whitespace. *)
Definition starts_with_space (s : str) : bool :=
  match s with c :: _ => isspace c | [] => false end.
Definition ends_with_space (s : str) : bool := starts_with_space (List.rev s).

(** A decimal digit, [0] to [9]. *)
Definition is_digit (c : N) : Prop := (48 <= c <= 57)%N.

End PyStr.

(** ** Statements with effects: a monad for Python control flow *)

Module PyEff.
Import PyStr.

(** An exception object: an instance of [Exception] or of a subclass,
    the exceptions the handlers of the module name.  [str(e)] is its
    message.  What is raised outside that class ([KeyboardInterrupt],
    [SystemExit]) is not modelled. *)
Inductive exn : Type := Exception (msg : str).

Definition exn_str (e : exn) : str := let 'Exception m := e in m.

(** What a call into a library or the OS gives back. *)
Inductive outcome (A : Type) : Type :=
| Ok (a : A)
| Err (e : exn).
Arguments Ok {A} a.
Arguments Err {A} e.

Inductive level : Type := DEBUG | INFO | WARNING | ERROR.

(** What the module does to the outside, in order: log records and the
    calls into the OS and the libraries, with their arguments.  The
    [os.path] functions are pure queries and leave no event. *)
Inductive event : Type :=
| EvLog (lvl : level) (msg : str) (exc_info : bool)
| EvSleep (secs : Z)
| EvOpen (path : str)
| EvRead (size : nat)
| EvClose
| EvTempDirEnter
| EvTempDirExit
| EvConvertFromPath (pdf_path : str) (dpi : Z) (first_page last_page : option Z)
                    (poppler_path : str)
| EvCrop (box : Z * Z * Z * Z)
| EvConvert (mode : str)
| EvImageToString (lang config : str).

(** The world a call runs in: how many times [open] was called so far
    and the trace of events, oldest first. *)
Record World : Type := mkWorld { opens : nat; trace : list event }.

Definition world0 : World := mkWorld 0 [].

(** How a statement ends. *)
Inductive signal (R A : Type) : Type :=
| Normal (a : A)
| Broke
| Returned (r : R)
| Raised (e : exn).
Arguments Normal {R A} a.
Arguments Broke {R A}.
Arguments Returned {R A} r.
Arguments Raised {R A} e.

(** A statement (or expression of type [A]) in a function returning [R]. *)
Definition M (R A : Type) : Type := World -> signal R A * World.

Definition pure {R A} (a : A) : M R A := fun w => (Normal a, w).

Definition bind {R A B} (m : M R A) (k : A -> M R B) : M R B :=
  fun w =>
    match m w with
    | (Normal a, w') => k a w'
    | (Broke, w') => (Broke, w')
    | (Returned r, w') => (Returned r, w')
    | (Raised e, w') => (Raised e, w')
    end.

Definition return_ {R A} (r : R) : M R A := fun w => (Returned r, w).
Definition break_ {R A} : M R A := fun w => (Broke, w).
Definition raise {R A} (e : exn) : M R A := fun w => (Raised e, w).

Definition emit {R} (ev : event) : M R unit :=
  fun w => (Normal tt, mkWorld (opens w) (trace w ++ [ev])).

(** Evaluating an expression that can raise and leaves no event. *)
Definition eval {R A} (o : outcome A) : M R A :=
  match o with Ok a => pure a | Err e => raise e end.

(** A library call: its event is recorded, its outcome becomes a value
    or a raised exception. *)
Definition call {R A} (ev : event) (o : outcome A) : M R A :=
  bind (emit ev)
       (fun _ => match o with Ok a => pure a | Err e => raise e end).

(** [if c: body] *)
Definition when {R} (c : bool) (body : M R unit) : M R unit :=
  if c then body else pure tt.

(** [try: body except Exception as e: handler] *)
Definition try_except {R A} (body : M R A) (handler : exn -> M R A) : M R A :=
  fun w =>
    match body w with
    | (Raised e, w') => handler e w'
    | other => other
    end.

(** [with enter as c: body]: [exit_] runs however the body ends, and an
    exception it raises replaces the body's way out. *)
Definition with_ {R A C} (enter : M R C) (exit_ : C -> M R unit)
           (body : C -> M R A) : M R A :=
  fun w =>
    match enter w with
    | (Normal c, w1) =>
        let (sig, w2) := body c w1 in
        match exit_ c w2 with
        | (Raised e, w3) => (Raised e, w3)
        | (_, w3) => (sig, w3)
        end
    | (Broke, w1) => (Broke, w1)
    | (Returned r, w1) => (Returned r, w1)
    | (Raised e, w1) => (Raised e, w1)
    end.

(** [for x in xs: body], threading the local variables [s] the body
    updates; [break] leaves the loop normally. *)
Fixpoint for_in {R X S} (xs : list X) (s : S) (body : X -> S -> M R S) : M R S :=
  match xs with
  | [] => pure s
  | x :: xs' =>
      fun w =>
        match body x s w with
        | (Normal s', w') => for_in xs' s' body w'
        | (Broke, w') => (Normal s, w')
        | (Returned r, w') => (Returned r, w')
        | (Raised e, w') => (Raised e, w')
        end
  end.

(** [range(n)] and [enumerate(xs)] *)
Definition range (n : nat) : list nat := seq 0 n.
Definition enumerate {A} (xs : list A) : list (nat * A) :=
  combine (seq 0 (List.length xs)) xs.

(** What the caller of a function gets. *)
Inductive pyresult (R : Type) : Type :=
| PyValue (r : R)
| PyNone
| PyRaise (e : exn).
Arguments PyValue {R} r.
Arguments PyNone {R}.
Arguments PyRaise {R} e.

(** Calling a function body in a fresh world. *)
Definition run {R} (body : M R unit) : pyresult R * list event :=
  match body world0 with
  | (Returned r, w) => (PyValue r, trace w)
  | (Raised e, w) => (PyRaise e, trace w)
  | (_, w) => (PyNone, trace w)
  end.

Declare Scope py_scope.
Delimit Scope py_scope with py.
Notation "x <- c ;; k" := (bind c (fun x => k))
  (at level 100, c at next level, right associativity) : py_scope.
Notation "c ;; k" := (bind c (fun _ => k))
  (at level 100, right associativity) : py_scope.

End PyEff.

(** ** The module: class [OCRProcessor] *)

Module OCRProcessor.
Import PyStr PyEff.
Local Open Scope py_scope.

(** An open binary file: what is in it, and whether reading from it or
    closing it fails. *)
Record File : Type := mkFile {
  f_content : bytes;
  f_read_err : option exn;
  f_close_err : option exn
}.

(** The operating system and the three libraries, as the module sees
    them.  [Image] is PIL's image type; nothing in the module looks
    inside one. *)
Record Env (Image : Type) : Type := mkEnv {
  os_path_normpath : str -> str;
  os_path_exists : str -> bool;
  os_path_join : str -> list str -> str;
  os_path_dirname : str -> str;
  os_path_basename : str -> str;
  (** [__file__] of the module *)
  module_file : str;
  (** [open(path, 'rb')]: the file may be locked at first and released
      later, so the answer depends on how many calls came before *)
  builtin_open : nat -> str -> outcome File;
  (** [tempfile.TemporaryDirectory()]: entering gives the directory's
      name, leaving removes it *)
  tempdir_enter : outcome str;
  tempdir_exit : outcome unit;
  (** [pdf2image.convert_from_path(pdf_path, dpi, first_page, last_page, poppler_path)] *)
  convert_from_path : str -> Z -> option Z -> option Z -> str -> outcome (list Image);
  (** [image.convert(mode)] and [image.crop(box)] *)
  image_convert : Image -> str -> outcome Image;
  image_crop : Image -> Z * Z * Z * Z -> outcome Image;
  (** [pytesseract.image_to_string(image, lang, config)] *)
  image_to_string : Image -> str -> str -> outcome str;
  (** [sys.get_int_max_str_digits()]: the longest int the interpreter
      converts to a decimal string, 4300 digits by default; 0 where
      there is no limit *)
  int_max_str_digits : nat
}.
Arguments os_path_normpath {Image} _ _.
Arguments os_path_exists {Image} _ _.
Arguments os_path_join {Image} _ _ _.
Arguments os_path_dirname {Image} _ _.
Arguments os_path_basename {Image} _ _.
Arguments module_file {Image} _.
Arguments builtin_open {Image} _ _ _.
Arguments tempdir_enter {Image} _.
Arguments tempdir_exit {Image} _.
Arguments convert_from_path {Image} _ _ _ _ _ _.
Arguments image_convert {Image} _ _ _.
Arguments image_crop {Image} _ _ _.
Arguments image_to_string {Image} _ _ _ _.
Arguments int_max_str_digits {Image} _.

Section Processor.
Context {Image : Type} (env : Env Image).

(** *** The logger and the file object *)

Definition logger_debug {R} (msg : str) : M R unit := emit (EvLog DEBUG msg false).
Definition logger_info {R} (msg : str) : M R unit := emit (EvLog INFO msg false).
Definition logger_warning {R} (msg : str) : M R unit := emit (EvLog WARNING msg false).
Definition logger_error {R} (msg : str) (exc_info : bool) : M R unit :=
  emit (EvLog ERROR msg exc_info).

Definition time_sleep {R} (secs : Z) : M R unit := emit (EvSleep secs).

(** [open(path, 'rb')] *)
Definition open_rb {R} (path : str) : M R File :=
  fun w =>
    let w' := mkWorld (S (opens w)) (trace w ++ [EvOpen path]) in
    match builtin_open env (opens w) path with
    | Ok f => (Normal f, w')
    | Err e => (Raised e, w')
    end.

(** [f.read(size)] *)
Definition file_read {R} (f : File) (size : nat) : M R bytes :=
  call (EvRead size)
       match f_read_err f with
       | Some e => Err e
       | None => Ok (firstn size (f_content f))
       end.

(** [f.close()], which leaving [with open(...) as f] calls *)
Definition file_close {R} (f : File) : M R unit :=
  call EvClose
       match f_close_err f with
       | Some e => Err e
       | None => Ok tt
       end.

(** [b'%PDF'] *)
Definition pdf_magic : bytes := [x25; x50; x44; x46].

(** *** [_preprocess_image_for_ocr] *)

Definition _preprocess_image_for_ocr {R} (image : Image) : M R Image :=
  call (EvConvert (py "L")) (image_convert env image (py "L")).

(** *** [extract_text_from_pdf] *)

Definition max_retries : nat := 3.

(** The directory of the rasterizer's binaries, next to the module. *)
Definition poppler_dir : str :=
  os_path_normpath env
    (os_path_join env (os_path_dirname env (module_file env))
                  [py ".."; py "poppler"; py "bin"]).

(** One page's block: [f"--- Seite {i+1} ---\n{text}"] *)
Definition page_block (i : nat) (text : str) : str :=
  py "--- Seite " ++ str_of_nat (i + 1) ++ py " ---" ++ [10%N] ++ text.

(** The body of [for i in range(max_retries)]. *)
Definition open_attempt (pdf_path : str) (i : nat) (_ : unit) : M str unit :=
  try_except
    (with_ (open_rb pdf_path) file_close
       (fun f =>
          header <- file_read f 4 ;;
          when (negb (bytes_eqb header pdf_magic))
               (logger_error (py "Keine gültige PDF-Datei: " ++ pdf_path) false ;;
                return_ empty_str)) ;;
     break_)
    (fun e =>
       if i <? max_retries - 1 then
         logger_warning (py "Datei noch gesperrt, warte... (" ++ str_of_nat (i + 1)
                         ++ py "/" ++ str_of_nat max_retries ++ py ")") ;;
         time_sleep 1
       else
         logger_error (py "Datei konnte nicht geöffnet werden: " ++ exn_str e) false ;;
         return_ empty_str).

(** The body of [for i, image in enumerate(images)]; [all_text] is the
    list the loop appends to. *)
Definition ocr_page (language : str) (n_images : nat) (p : nat * Image)
           (all_text : list str) : M str (list str) :=
  let '(i, image) := p in
  logger_debug (py "OCR auf Seite " ++ str_of_nat (i + 1) ++ py "/"
                ++ str_of_nat n_images) ;;
  preprocessed_image <- _preprocess_image_for_ocr image ;;
  text <- call (EvImageToString language empty_str)
               (image_to_string env preprocessed_image language empty_str) ;;
  pure (all_text ++ [page_block i text]).

(** The [with tempfile.TemporaryDirectory() as temp_dir:] block:
    rasterize every page, OCR each one, join the blocks. *)
Definition ocr_all_pages (pdf_path language : str) : M str unit :=
  with_ (call EvTempDirEnter (tempdir_enter env))
        (fun _ => call EvTempDirExit (tempdir_exit env))
    (fun temp_dir =>
       let poppler_path := poppler_dir in
       when (negb (os_path_exists env poppler_path))
            (logger_error (py "Poppler nicht gefunden in: " ++ poppler_path) false ;;
             return_ empty_str) ;;
       images <- call (EvConvertFromPath pdf_path 300 None None poppler_path)
                      (convert_from_path env pdf_path 300 None None poppler_path) ;;
       all_text <- for_in (enumerate images) []
                          (ocr_page language (List.length images)) ;;
       let result_text := join (py "

") all_text in
       logger_info (py "OCR abgeschlossen für " ++ os_path_basename env pdf_path
                    ++ py ": " ++ str_of_nat (List.length result_text)
                    ++ py " Zeichen extrahiert") ;;
       return_ result_text).

(** The function body.  [os.path.normpath] does not raise on a [str], so
    the handler of the outer [try] always sees the normalized path. *)
Definition extract_text_from_pdf_body (pdf_path language : str) : M str unit :=
  let pdf_path := os_path_normpath env pdf_path in
  try_except
    (when (negb (os_path_exists env pdf_path))
          (logger_error (py "PDF-Datei nicht gefunden: " ++ pdf_path) false ;;
           return_ empty_str) ;;
     for_in (range max_retries) tt (open_attempt pdf_path) ;;
     logger_debug (py "Starte OCR für: " ++ pdf_path) ;;
     ocr_all_pages pdf_path language)
    (fun e =>
       logger_error (py "Fehler bei OCR für " ++ pdf_path ++ py ": " ++ exn_str e) true ;;
       return_ empty_str).

Definition extract_text_from_pdf (pdf_path language : str)
  : pyresult str * list event :=
  run (extract_text_from_pdf_body pdf_path language).

(** *** Ints in f-strings *)

(** Whether the interpreter converts [z] to a decimal string: it refuses
    an int of more digits than its limit. *)
Definition int_printable (z : Z) : bool :=
  (int_max_str_digits env =? 0) || (digits z <=? int_max_str_digits env).

(** [str(z)], also what [repr(z)] and [{z}] in an f-string give: the
    numeral, or a [ValueError]. *)
Definition str_int (z : Z) : outcome str :=
  if int_printable z then Ok (decimal z)
  else Err (Exception
              (py "Exceeds the limit (" ++ str_of_nat (int_max_str_digits env)
               ++ py " digits) for integer string conversion; use sys.set_int_max_str_digits() to increase the limit")).

(** [{z}] inside an f-string *)
Definition format_int {R} (z : Z) : M R str := eval (str_int z).

(** [{zone}] inside an f-string: the [repr] of a 4-tuple of ints, which
    takes the [repr] of each component in turn. *)
Definition format_zone {R} (zone : Z * Z * Z * Z) : M R str :=
  let '(x, y, w, h) := zone in
  sx <- format_int x ;;
  sy <- format_int y ;;
  sw <- format_int w ;;
  sh <- format_int h ;;
  pure (py "(" ++ sx ++ py ", " ++ sy ++ py ", " ++ sw ++ py ", " ++ sh ++ py ")").

(** Every component of the zone can be printed. *)
Definition zone_printable (zone : Z * Z * Z * Z) : bool :=
  let '(x, y, w, h) := zone in
  int_printable x && int_printable y && int_printable w && int_printable h.

(** *** [extract_text_from_zone] *)

(** [r'--oem 3 --psm 6'] *)
Definition custom_config : str := py "--oem 3 --psm 6".

(** The function body.  Each f-string is built before the logger is
    called, and building it can raise: the messages that print
    [page_num] or [zone] are evaluated as statements of their own.  The
    handler prints [page_num] too, outside any [try]. *)
Definition extract_text_from_zone_body (pdf_path : str) (page_num : Z)
           (zone : Z * Z * Z * Z) (language : str) : M str unit :=
  let pdf_path := os_path_normpath env pdf_path in
  try_except
    (when (negb (os_path_exists env pdf_path))
          (logger_error (py "PDF-Datei nicht gefunden für Zone-OCR: " ++ pdf_path) false ;;
           return_ empty_str) ;;
     s_page <- format_int page_num ;;
     s_zone <- format_zone zone ;;
     logger_debug (py "OCR-Zone-Extraktion: " ++ pdf_path ++ py ", Seite "
                   ++ s_page ++ py ", Zone " ++ s_zone) ;;
     let poppler_path := poppler_dir in
     images <- call (EvConvertFromPath pdf_path 300 (Some page_num) (Some page_num)
                                       poppler_path)
                    (convert_from_path env pdf_path 300 (Some page_num) (Some page_num)
                                       poppler_path) ;;
     match images with
     | [] =>
         s_page <- format_int page_num ;;
         logger_warning (py "Keine Bilder aus PDF-Seite " ++ s_page
                         ++ py " konvertiert") ;;
         return_ empty_str
     | image :: _ =>
         let '(x, y, w, h) := zone in
         cropped <- call (EvCrop (x, y, x + w, y + h)%Z)
                         (image_crop env image (x, y, x + w, y + h)%Z) ;;
         preprocessed_cropped <- _preprocess_image_for_ocr cropped ;;
         text <- call (EvImageToString language custom_config)
                      (image_to_string env preprocessed_cropped language custom_config) ;;
         let result := strip text in
         logger_debug (py "Zone-OCR Ergebnis: '" ++ slice_to 50 result ++ py "...' ("
                       ++ str_of_nat (List.length result) ++ py " Zeichen)") ;;
         return_ result
     end)
    (fun e =>
       s_page <- format_int page_num ;;
       logger_error (py "Fehler bei Zone OCR für " ++ os_path_basename env pdf_path
                     ++ py ", Seite " ++ s_page ++ py ": " ++ exn_str e) true ;;
       return_ empty_str).

Definition extract_text_from_zone (pdf_path : str) (page_num : Z)
           (zone : Z * Z * Z * Z) (language : str) : pyresult str * list event :=
  run (extract_text_from_zone_body pdf_path page_num zone language).

End Processor.

End OCRProcessor.

(** ** Reading a trace *)

Module Trace.
Import PyStr PyEff.

Definition log_level (ev : event) : option level :=
  match ev with EvLog l _ _ => Some l | _ => None end.

(** The level of the last log record of a trace. *)
Fixpoint last_level (tr : list event) : option level :=
  match tr with
  | [] => None
  | ev :: tr' =>
      match last_level tr' with
      | Some l => Some l
      | None => log_level ev
      end
  end.

Definition is_error (ev : event) : bool :=
  match ev with EvLog ERROR _ _ => true | _ => false end.

Definition is_info (ev : event) : bool :=
  match ev with EvLog INFO _ _ => true | _ => false end.

(** Opening the file and sleeping: the events of the readiness check. *)
Definition is_io (ev : event) : bool :=
  match ev with EvOpen _ | EvSleep _ => true | _ => false end.

Definition is_open (ev : event) : bool :=
  match ev with EvOpen _ => true | _ => false end.

Definition is_sleep (ev : event) : bool :=
  match ev with EvSleep _ => true | _ => false end.

(** A call of the rasterizer. *)
Definition is_rasterize (ev : event) : bool :=
  match ev with EvConvertFromPath _ _ _ _ _ => true | _ => false end.

Definition is_crop (ev : event) : bool :=
  match ev with EvCrop _ => true | _ => false end.

(** The events one iteration of the retry loop can leave. *)
Definition retry_event (ev : event) : bool :=
  match ev with
  | EvOpen _ | EvSleep _ | EvRead _ | EvClose | EvLog _ _ _ => true
  | _ => false
  end.

(** The events one iteration of the page loop can leave. *)
Definition ocr_event (ev : event) : bool :=
  match ev with
  | EvLog DEBUG _ _ | EvConvert _ | EvImageToString _ _ => true
  | _ => false
  end.

(** The events of [n] attempts to open [q], one second apart. *)
Definition io_shape (q : str) (n : nat) : list event :=
  match n with
  | 0 => []
  | S m => EvOpen q :: List.concat (repeat [EvSleep 1; EvOpen q] m)
  end.

End Trace.

(** ** Scenarios *)

Module Scenario.
Import PyStr PyEff OCRProcessor.

(** The prefix every page header starts with, and the separator between
    page blocks. *)
Definition marker : str := py "--- Seite ".
Definition page_sep : str := py "

".

(** The blocks of a document whose pages read as [texts], in order. *)
Definition page_blocks (texts : list str) : list str :=
  map (fun p => page_block (fst p) (snd p)) (enumerate texts).

(** The file object reads and closes without error. *)
Definition sound (f : File) : Prop := f_read_err f = None /\ f_close_err f = None.

(** What [f.read(4)] gives. *)
Definition header (f : File) : bytes := firstn 4 (f_content f).

Section WithEnv.
Context {Image : Type} (env : Env Image).

(** Grayscale conversion and OCR of page image [img] succeed and read [t]. *)
Definition page_reads (lang : str) (img : Image) (t : str) : Prop :=
  exists g, image_convert env img (py "L") = Ok g /\
            image_to_string env g lang empty_str = Ok t.

(** The file at [p] is locked for the first [k] calls of [open], which
    raise; call [k] opens it as [f]. *)
Definition opens_at (p : str) (k : nat) (f : File) : Prop :=
  (forall j, j < k -> exists e, builtin_open env j p = Err e) /\
  builtin_open env k p = Ok f /\ sound f.

(** A valid document: the file exists, opens within the retries and
    starts with [%PDF]; the poppler directory is there, the temporary
    directory works, and the rasterizer gives [images]. *)
Definition valid_document (p : str) (images : list Image) : Prop :=
  let q := os_path_normpath env p in
  os_path_exists env q = true /\
  (exists k f, k < max_retries /\ opens_at q k f /\ header f = pdf_magic) /\
  os_path_exists env (poppler_dir env) = true /\
  (exists d, tempdir_enter env = Ok d) /\
  tempdir_exit env = Ok tt /\
  convert_from_path env q 300 None None (poppler_dir env) = Ok images.

End WithEnv.

End Scenario.

(** ** Concrete environments *)

Module Sample.
Import PyStr PyEff OCRProcessor.

(** A readable file with the given content. *)
Definition file_of (content : bytes) : File := mkFile content None None.

(** [%PDF-1.4] *)
Definition pdf_bytes : bytes := [x25; x50; x44; x46; x2d; x31; x2e; x34].

Definition locked : outcome File := Err (Exception (py "Permission denied")).

(** An environment whose images are the text printed on them: every path
    in [present] exists, the [n]-th [open] answers [opening n], the
    rasterizer answers [pages], cropping and grayscale keep the text and
    OCR reads it; the interpreter has its default limit of 4300 digits. *)
Definition env_of (present : list str) (opening : nat -> outcome File)
           (pages : outcome (list str)) : Env str :=
  mkEnv str
    (fun p => p)
    (fun p => existsb (fun q => if list_eq_dec N.eq_dec p q then true else false) present)
    (fun a ps => join (py "/") (a :: ps))
    (fun _ => py "/app/core")
    (fun p => p)
    (py "/app/core/ocr_processor.py")
    (fun n _ => opening n)
    (Ok (py "/tmp/tmpdir"))
    (Ok tt)
    (fun _ _ _ _ _ => pages)
    (fun img _ => Ok img)
    (fun img _ => Ok img)
    (fun img _ _ => Ok img)
    4300.

Definition doc : str := py "scan.pdf".
Definition missing : str := py "missing.pdf".
Definition poppler : str := py "/app/core/../poppler/bin".
Definition deu : str := py "deu".

(** An int of 4301 digits. *)
Definition huge : Z := (10 ^ 4300)%Z.

(** [GIF89a] and a file of two bytes *)
Definition gif_bytes : bytes := [x47; x49; x46; x38; x39; x61].
Definition short_bytes : bytes := [x25; x50].

Definition invoice : str := py "INVOICE".
Definition receipt : str := py "RECEIPT".
Definition invoice_zone : str := py "  Invoice #123
".

(** A readable PDF of two pages, of one page, of no page. *)
Definition env_two : Env str :=
  env_of [doc; poppler] (fun _ => Ok (file_of pdf_bytes)) (Ok [invoice; receipt]).
Definition env_one : Env str :=
  env_of [doc; poppler] (fun _ => Ok (file_of pdf_bytes)) (Ok [invoice]).
Definition env_empty : Env str :=
  env_of [doc; poppler] (fun _ => Ok (file_of pdf_bytes)) (Ok []).

(** A readable PDF of one page on which a page header is printed. *)
Definition printed_header : str := py "--- Seite 7 ---".
Definition env_printed_header : Env str :=
  env_of [doc; poppler] (fun _ => Ok (file_of pdf_bytes)) (Ok [printed_header]).

(** The file is locked for the first call of [open], then opens and is
    no PDF; the file stays locked; the file opens at once and is no PDF;
    the file has two bytes. *)
Definition env_locked_then_gif : Env str :=
  env_of [doc; poppler]
         (fun n => if n =? 0 then locked else Ok (file_of gif_bytes))
         (Ok [invoice_zone]).
Definition env_all_locked : Env str :=
  env_of [doc; poppler] (fun _ => locked) (Ok [invoice_zone]).
Definition env_gif : Env str :=
  env_of [doc; poppler] (fun _ => Ok (file_of gif_bytes)) (Ok [invoice_zone]).
Definition env_short : Env str :=
  env_of [doc; poppler] (fun _ => Ok (file_of short_bytes)) (Ok [invoice_zone]).

(** A readable PDF, and no poppler directory next to the module. *)
Definition env_no_poppler : Env str :=
  env_of [doc] (fun _ => Ok (file_of pdf_bytes)) (Ok [invoice_zone]).

End Sample.

(** ** The constructor: [__init__] and [_setup_tesseract] *)

Module TesseractSetup.
Import PyStr PyEff OCRProcessor.

(** The candidate install paths, in the order they are probed. *)
Definition tesseract_paths : list str :=
  [py "C:\Program Files\Tesseract-OCR\tesseract.exe";
   py "C:\Program Files (x86)\Tesseract-OCR\tesseract.exe";
   py "C:\Users\%USERNAME%\AppData\Local\Tesseract-OCR\tesseract.exe"].

(** What the constructor can change: the module-level variable
    [pytesseract.pytesseract.tesseract_cmd] and the log. *)
Record PyTesseract : Type := mkPyTesseract {
  tesseract_cmd : str;
  setup_log : list event
}.

Section Setup.
Context {Image : Type} (env : Env Image).
(** [os.path.expandvars] *)
Variable os_path_expandvars : str -> str.

(** [for path in tesseract_paths: ...] from the candidates still to
    probe; the [return] of a match ends the function, the warning
    follows the exhausted loop. *)
Fixpoint _setup_tesseract_loop (paths : list str) (st : PyTesseract) : PyTesseract :=
  match paths with
  | [] =>
      mkPyTesseract
        (tesseract_cmd st)
        (setup_log st ++
         [EvLog WARNING
                (py "Tesseract nicht in Standard-Pfaden gefunden. Stelle sicher, dass es installiert ist.")
                false])
  | path :: paths' =>
      let expanded_path := os_path_expandvars path in
      if os_path_exists env expanded_path then
        mkPyTesseract
          expanded_path
          (setup_log st ++
           [EvLog DEBUG (py "Tesseract gefunden: " ++ expanded_path) false])
      else _setup_tesseract_loop paths' st
  end.

Definition _setup_tesseract (st : PyTesseract) : PyTesseract :=
  _setup_tesseract_loop tesseract_paths st.

(** [path] is the first of [paths] whose expansion exists. *)
Definition found_at (paths : list str) (path : str) : Prop :=
  exists pre post,
    paths = pre ++ path :: post /\
    os_path_exists env (os_path_expandvars path) = true /\
    forallb (fun c => negb (os_path_exists env (os_path_expandvars c))) pre = true.

(** None of [paths] exists after expansion. *)
Definition none_found (paths : list str) : Prop :=
  forallb (fun c => negb (os_path_exists env (os_path_expandvars c))) paths = true.

(** [OCRProcessor()] *)
Definition __init__ (st : PyTesseract) : PyTesseract := _setup_tesseract st.

End Setup.

End TesseractSetup.

(** ** Reading the calls of a trace *)

Module Calls.
Import PyStr PyEff OCRProcessor.

Definition is_log (ev : event) : bool :=
  match ev with EvLog _ _ _ => true | _ => false end.

(** The calls into the OS and the libraries, without the log records. *)
Definition calls (tr : list event) : list event :=
  filter (fun ev => negb (is_log ev)) tr.

Definition is_close (ev : event) : bool :=
  match ev with EvClose => true | _ => false end.

Definition is_tempdir (ev : event) : bool :=
  match ev with EvTempDirEnter | EvTempDirExit => true | _ => false end.

Definition is_ocr (ev : event) : bool :=
  match ev with EvImageToString _ _ => true | _ => false end.

Definition is_grayscale (ev : event) : bool :=
  match ev with EvConvert _ => true | _ => false end.

(** A record that reports a failure. *)
Definition is_diagnostic (ev : event) : bool :=
  match ev with EvLog ERROR _ _ | EvLog WARNING _ _ => true | _ => false end.

Definition is_warning (ev : event) : bool :=
  match ev with EvLog WARNING _ _ => true | _ => false end.

Definition is_ok {A} (o : outcome A) : bool :=
  match o with Ok _ => true | Err _ => false end.

Section WithEnv.
Context {Image : Type} (env : Env Image).

(** How many of the first [n] calls of [open] on [q] give a file. *)
Definition opened (q : str) (n : nat) : nat :=
  List.length (filter (fun j => is_ok (builtin_open env j q)) (seq 0 n)).

(** The file at [q] passes the readiness check at call [k]: it opens,
    and its first four bytes are read as [%PDF]. *)
Definition signature_seen (q : str) (k : nat) : Prop :=
  exists f, builtin_open env k q = Ok f /\
            f_read_err f = None /\ Scenario.header f = pdf_magic.

(** Page image [img] cannot be read: grayscale conversion raises, or
    OCR of the converted image does. *)
Definition page_fails (lang : str) (img : Image) : Prop :=
  (exists e, image_convert env img (py "L") = Err e) \/
  (exists g e, image_convert env img (py "L") = Ok g /\
               image_to_string env g lang empty_str = Err e).

End WithEnv.

(** The calls of the readiness check on a file that opens at call [k]. *)
Definition ready_calls (q : str) (k : nat) : list event :=
  List.concat (repeat [EvOpen q; EvSleep 1] k) ++ [EvOpen q; EvRead 4; EvClose].

(** The calls of the page loop on [n] pages. *)
Definition page_calls (lang : str) (n : nat) : list event :=
  List.concat (repeat [EvConvert (py "L"); EvImageToString lang empty_str] n).

End Calls.

(** ** More concrete environments *)

Module Sample2.
Import PyStr PyEff OCRProcessor TesseractSetup Sample.

(** Variables expand by replacing [%USERNAME%] in the third candidate;
    the other paths are left as they are. *)
Definition user_path : str := py "C:\Users\anna\AppData\Local\Tesseract-OCR\tesseract.exe".
Definition expand (p : str) : str :=
  if list_eq_dec N.eq_dec p
       (py "C:\Users\%USERNAME%\AppData\Local\Tesseract-OCR\tesseract.exe")
  then user_path else p.

Definition x86_path : str := py "C:\Program Files (x86)\Tesseract-OCR\tesseract.exe".

(** Tesseract is installed in the second and the third place. *)
Definition env_tesseract : Env str :=
  env_of [x86_path; user_path] (fun _ => locked) (Ok []).

Definition fresh : PyTesseract := mkPyTesseract (py "tesseract") [].

Definition boom : exn := Exception (py "boom").

(** The environment [env] where cropping raises. *)
Definition with_crop_error (env : Env str) : Env str :=
  mkEnv str (os_path_normpath env) (os_path_exists env) (os_path_join env)
        (os_path_dirname env) (os_path_basename env) (module_file env)
        (builtin_open env) (tempdir_enter env) (tempdir_exit env)
        (convert_from_path env) (image_convert env)
        (fun _ _ => Err boom) (image_to_string env) (int_max_str_digits env).

(** The environment [env] where removing the temporary directory raises. *)
Definition with_cleanup_error (env : Env str) : Env str :=
  mkEnv str (os_path_normpath env) (os_path_exists env) (os_path_join env)
        (os_path_dirname env) (os_path_basename env) (module_file env)
        (builtin_open env) (tempdir_enter env) (Err boom)
        (convert_from_path env) (image_convert env)
        (image_crop env) (image_to_string env) (int_max_str_digits env).

(** The environment [env] where OCR raises on the image [bad]. *)
Definition with_ocr_error (bad : str) (env : Env str) : Env str :=
  mkEnv str (os_path_normpath env) (os_path_exists env) (os_path_join env)
        (os_path_dirname env) (os_path_basename env) (module_file env)
        (builtin_open env) (tempdir_enter env) (tempdir_exit env)
        (convert_from_path env) (image_convert env) (image_crop env)
        (fun img lang config =>
           if list_eq_dec N.eq_dec img bad then Err boom
           else image_to_string env img lang config)
        (int_max_str_digits env).

(** The file is locked for the first call of [open], then a readable PDF
    of two pages. *)
Definition env_locked_then_pdf : Env str :=
  env_of [doc; poppler]
         (fun n => if n =? 0 then locked else Ok (file_of pdf_bytes))
         (Ok [invoice; receipt]).

End Sample2.

Import PyStr PyEff OCRProcessor Trace Scenario.
Import TesseractSetup Calls.

(** ** Python strings *)

Example py_fuer : py "für" = [102; 252; 114]%N.
Proof. reflexivity. Qed.

Example decimal_neg : decimal (-12) = py "-12" /\ digits (-12) = 2.
Proof. split; reflexivity. Qed.

Example strip_ex : strip (py "  a b
 ") = py "a b".
Proof. reflexivity. Qed.

Arguments py : simpl never.
Arguments str_of_nat : simpl never.
Arguments decimal : simpl never.

Lemma lstrip_clean (s : str) : starts_with_space (lstrip s) = false.
Proof.
  induction s as [|c s IH]; simpl; [reflexivity|].
  destruct (isspace c) eqn:Hc; [exact IH|]. simpl. exact Hc.
Qed.

Lemma lstrip_suffix (s : str) : exists pre, s = pre ++ lstrip s.
Proof.
  induction s as [|c s [pre IH]]; simpl; [exists []; reflexivity|].
  destruct (isspace c).
  - exists (c :: pre). simpl. f_equal. exact IH.
  - exists []. reflexivity.
Qed.

Lemma rstrip_prefix (s : str) : exists suf, s = rstrip s ++ suf.
Proof.
  unfold rstrip. destruct (lstrip_suffix (List.rev s)) as [pre H].
  exists (List.rev pre).
  rewrite <- rev_app_distr, <- H, rev_involutive. reflexivity.
Qed.

(** [strip] leaves no whitespace at either end. *)
Lemma strip_clean (t : str) :
  starts_with_space (strip t) = false /\ ends_with_space (strip t) = false.
Proof.
  unfold strip. split.
  - destruct (rstrip_prefix (lstrip t)) as [suf H].
    pose proof (lstrip_clean t) as Hc. rewrite H in Hc.
    destruct (rstrip (lstrip t)); [reflexivity|exact Hc].
  - unfold ends_with_space, rstrip. rewrite rev_involutive. apply lstrip_clean.
Qed.

Lemma starts_with_cut (pat a b : str) (c : N) :
  ~ In c pat -> pat <> [] ->
  starts_with pat (a ++ c :: b) = starts_with pat a.
Proof.
  revert a. induction pat as [|q pat IH]; intros a Hc Hne; [congruence|].
  destruct a as [|x a]; simpl.
  - destruct (N.eqb_spec q c) as [->|_]; [|reflexivity].
    exfalso. apply Hc. left. reflexivity.
  - destruct pat as [|q' pat']; [reflexivity|].
    rewrite IH; [reflexivity| |discriminate].
    intros Hin. apply Hc. right. exact Hin.
Qed.

(** A pattern without the character [c] does not occur across a [c]. *)
Lemma count_occ_sub_cut (pat a b : str) (c : N) :
  ~ In c pat -> pat <> [] ->
  count_occ_sub pat (a ++ c :: b) = count_occ_sub pat a + count_occ_sub pat b.
Proof.
  intros Hc Hne. induction a as [|x a IH].
  - change ([] ++ c :: b) with (c :: b).
    cbn [count_occ_sub]. change (c :: b) with ([] ++ c :: b) at 1.
    rewrite (starts_with_cut pat [] b c Hc Hne). reflexivity.
  - change ((x :: a) ++ c :: b) with (x :: (a ++ c :: b)).
    cbn [count_occ_sub]. rewrite IH.
    change (x :: a ++ c :: b) with ((x :: a) ++ c :: b).
    rewrite (starts_with_cut pat (x :: a) b c Hc Hne). lia.
Qed.

Lemma string_of_uint_digits (d : Decimal.uint) :
  Forall is_digit (py (DecimalString.NilEmpty.string_of_uint d)).
Proof.
  unfold py, is_digit.
  induction d; cbn; constructor; try lia; assumption.
Qed.

Lemma str_of_nat_digits (n : nat) : Forall is_digit (str_of_nat n).
Proof.
  unfold str_of_nat, DecimalString.NilZero.string_of_uint.
  destruct (Nat.to_uint n); try apply string_of_uint_digits.
  unfold py, is_digit. cbn. constructor; [lia|constructor].
Qed.

Lemma starts_with_head_ne (q d : N) (pat s : str) :
  q <> d -> starts_with (q :: pat) (d :: s) = false.
Proof.
  intros Hne. simpl. destruct (N.eqb_spec q d); [contradiction|reflexivity].
Qed.

Lemma count_marker_skip (ds rest : str) :
  Forall is_digit ds ->
  count_occ_sub marker (ds ++ rest) = count_occ_sub marker rest.
Proof.
  induction 1 as [|d ds Hd _ IH]; [reflexivity|].
  change ((d :: ds) ++ rest) with (d :: (ds ++ rest)).
  cbn [count_occ_sub]. rewrite IH.
  change marker with (45%N :: py "-- Seite ") at 1.
  rewrite starts_with_head_ne; [reflexivity|].
  unfold is_digit in Hd. lia.
Qed.

(** The header of a page block holds the marker once. *)
Lemma count_marker_header (i : nat) :
  count_occ_sub marker (py "--- Seite " ++ str_of_nat (i + 1) ++ py " ---") = 1.
Proof.
  pose proof (count_marker_skip (str_of_nat (i + 1)) (py " ---")
                                (str_of_nat_digits (i + 1))) as H.
  change (count_occ_sub marker (py " ---")) with 0 in H.
  revert H. generalize (str_of_nat (i + 1) ++ py " ---"). intros rest H.
  change (py "--- Seite ") with [45; 45; 45; 32; 83; 101; 105; 116; 101; 32]%N.
  change marker with [45; 45; 45; 32; 83; 101; 105; 116; 101; 32]%N in *.
  cbn [app count_occ_sub]. cbn [starts_with andb N.eqb Pos.eqb].
  rewrite H. reflexivity.
Qed.

Lemma count_marker_block (i : nat) (t : str) :
  count_occ_sub marker t = 0 ->
  count_occ_sub marker (page_block i t) = 1.
Proof.
  intros Ht. unfold page_block.
  replace (py "--- Seite " ++ str_of_nat (i + 1) ++ py " ---" ++ [10%N] ++ t)
    with ((py "--- Seite " ++ str_of_nat (i + 1) ++ py " ---") ++ 10%N :: t)
    by (rewrite <- !app_assoc; reflexivity).
  rewrite count_occ_sub_cut; [| |discriminate].
  - rewrite count_marker_header, Ht. reflexivity.
  - vm_compute. intuition discriminate.
Qed.

Lemma count_marker_join (blocks : list str) :
  count_occ_sub marker (join page_sep blocks) =
  list_sum (map (count_occ_sub marker) blocks).
Proof.
  assert (Hnl : ~ In 10%N marker) by (vm_compute; intuition discriminate).
  assert (Hne : marker <> []) by discriminate.
  induction blocks as [|b blocks IH]; [reflexivity|].
  destruct blocks as [|b' blocks].
  - simpl. lia.
  - change (join page_sep (b :: b' :: blocks))
      with (b ++ 10%N :: ([] ++ 10%N :: join page_sep (b' :: blocks))).
    rewrite !count_occ_sub_cut by assumption.
    rewrite IH. simpl. lia.
Qed.

(** ** Ints the interpreter does not print *)

Lemma of_lu_bound (d : Decimal.uint) :
  (DecimalPos.Unsigned.of_lu d < 10 ^ DecimalPos.Unsigned.usize d)%N.
Proof.
  induction d; cbn [DecimalPos.Unsigned.of_lu DecimalPos.Unsigned.usize];
    rewrite ?N.pow_succ_r'; lia.
Qed.

Lemma usize_nb_digits (d : Decimal.uint) :
  DecimalPos.Unsigned.usize d = N.of_nat (Decimal.nb_digits d).
Proof.
  induction d; cbn [DecimalPos.Unsigned.usize Decimal.nb_digits];
    rewrite ?IHd; lia.
Qed.

Lemma length_py_uint (d : Decimal.uint) :
  List.length (py (NilEmpty.string_of_uint d)) = Decimal.nb_digits d.
Proof.
  unfold py. induction d; cbn; try rewrite IHd; reflexivity.
Qed.

Lemma digits_pos (p : positive) :
  digits (Z.pos p) = Decimal.nb_digits (Pos.to_uint p).
Proof.
  unfold digits, decimal. cbn [Z.abs Z.to_int NilZero.string_of_int].
  unfold NilZero.string_of_uint.
  pose proof (DecimalPos.Unsigned.to_uint_nonnil p) as Hnil.
  destruct (Pos.to_uint p) eqn:E; try congruence; rewrite <- E; apply length_py_uint.
Qed.

(** An int of absolute value [10 ^ n] or more has more than [n] digits. *)
Lemma digits_above (z : Z) (n : nat) :
  (10 ^ Z.of_nat n <= Z.abs z)%Z -> n < digits z.
Proof.
  intros H.
  assert (Hpos : (0 < Z.abs z)%Z).
  { apply Z.lt_le_trans with (2 := H). apply Z.pow_pos_nonneg; lia. }
  destruct (Z.abs z) as [|p|p] eqn:E; try lia.
  assert (Hd : digits z = digits (Z.pos p)).
  { unfold digits. rewrite E. reflexivity. }
  rewrite Hd, digits_pos.
  pose proof (DecimalPos.Unsigned.of_to p) as Hof.
  rewrite DecimalPos.Unsigned.of_uint_alt in Hof.
  pose proof (of_lu_bound (Decimal.rev (Pos.to_uint p))) as Hb.
  rewrite Hof, usize_nb_digits, DecimalFacts.nb_digits_rev in Hb.
  assert (Hlt : (10 ^ N.of_nat n < 10 ^ N.of_nat (Decimal.nb_digits (Pos.to_uint p)))%N).
  { apply N.le_lt_trans with (2 := Hb).
    apply N2Z.inj_le. rewrite N2Z.inj_pow. cbn [Z.of_N].
    rewrite nat_N_Z. exact H. }
  apply N.pow_lt_mono_r_iff in Hlt; lia.
Qed.

Lemma too_long_not_printable {Image : Type} (env : Env Image) (z : Z) :
  int_max_str_digits env <> 0 ->
  (10 ^ Z.of_nat (int_max_str_digits env) <= Z.abs z)%Z ->
  int_printable env z = false.
Proof.
  intros Hlimit Hbig. unfold int_printable.
  apply digits_above in Hbig.
  apply orb_false_iff. split.
  - apply Nat.eqb_neq. exact Hlimit.
  - apply Nat.leb_gt. exact Hbig.
Qed.

Lemma huge_not_printable (present : list str) (opening : nat -> outcome File)
      (pages : outcome (list str)) :
  int_printable (Sample.env_of present opening pages) Sample.huge = false.
Proof.
  apply too_long_not_printable.
  - discriminate.
  - change (Z.of_nat (int_max_str_digits (Sample.env_of present opening pages)))
      with 4300%Z.
    unfold Sample.huge. rewrite Z.abs_eq by (apply Z.pow_nonneg; lia).
    apply Z.le_refl.
Qed.

Lemma huge_zone_not_printable (present : list str) (opening : nat -> outcome File)
      (pages : outcome (list str)) (y w h : Z) :
  zone_printable (Sample.env_of present opening pages) (Sample.huge, y, w, h) = false.
Proof.
  unfold zone_printable. rewrite huge_not_printable. reflexivity.
Qed.

(** ** The stages of the two operations *)

Section Stages.
Context {Image : Type} (env : Env Image).

Lemma last_level_app (tr evs : list event) :
  last_level (tr ++ evs) =
  match last_level evs with Some l => Some l | None => last_level tr end.
Proof.
  induction tr as [|ev tr IH]; simpl.
  - destruct (last_level evs); reflexivity.
  - rewrite IH. destruct (last_level evs); reflexivity.
Qed.

Ltac retry_step :=
  cbn -[py str_of_nat bytes_eqb firstn];
  match goal with
  | |- context [builtin_open ?e ?n ?p] =>
      destruct (builtin_open e n p) as [[? [?|] [?|]]|?] eqn:?
  | |- context [bytes_eqb ?a ?b] => destruct (bytes_eqb a b) eqn:?
  end.

(** The readiness loop ends normally or returns the empty string; it
    opens the file one to three times, sleeping one second in between. *)
Lemma retry_loop_spec (p : str) (w : World) :
  exists sig w' evs,
    for_in (range max_retries) tt (open_attempt env p) w = (sig, w') /\
    trace w' = trace w ++ evs /\
    ((sig = Normal tt) \/
     (sig = Returned empty_str /\ last_level evs = Some ERROR)) /\
    In (filter is_io evs)
       [[EvOpen p]; [EvOpen p; EvSleep 1; EvOpen p];
        [EvOpen p; EvSleep 1; EvOpen p; EvSleep 1; EvOpen p]] /\
    forallb retry_event evs = true.
Proof.
  unfold range, max_retries, open_attempt, try_except, with_, open_rb, file_read,
    file_close, call, when, logger_error, logger_warning, time_sleep, emit, bind,
    pure, raise, return_, break_.
  repeat retry_step.
  all: cbn -[py str_of_nat bytes_eqb firstn].
  all: do 3 eexists; split; [reflexivity|].
  all: split; [cbn; rewrite <- ?app_assoc; cbn; reflexivity|].
  all: split; [auto|].
  all: split; [cbn; auto|reflexivity].
Qed.


Lemma ocr_events_quiet (evs : list event) :
  forallb ocr_event evs = true ->
  filter is_io evs = [] /\ filter is_rasterize evs = [] /\
  filter is_error evs = [] /\ filter is_info evs = [] /\
  (last_level evs = None \/ last_level evs = Some DEBUG).
Proof.
  induction evs as [|ev evs IH]; simpl; [intros _; repeat split; auto|].
  intros H. apply andb_true_iff in H. destruct H as [Hev H].
  destruct (IH H) as (H1 & H2 & H3 & H4 & H5).
  destruct ev as [l ? ?| | | | | | | | | |]; try destruct l; try discriminate; simpl;
    rewrite ?H1, ?H2, ?H3, ?H4; repeat split; auto;
    destruct H5 as [-> | ->]; auto.
Qed.

Ltac unfold_py :=
  unfold ocr_page, _preprocess_image_for_ocr, ocr_all_pages, with_, call, when,
    logger_error, logger_warning, logger_debug, logger_info, time_sleep, emit,
    bind, pure, raise, return_, break_, try_except.

Ltac unfold_py_in H :=
  unfold ocr_page, _preprocess_image_for_ocr, ocr_all_pages, with_, call, when,
    logger_error, logger_warning, logger_debug, logger_info, time_sleep, emit,
    bind, pure, raise, return_, break_, try_except in H.

(** The page loop only logs at debug level, converts and runs OCR; it
    ends normally or with an exception of one of these calls. *)
Lemma ocr_loop_spec (lang : str) (n : nat) (ps : list (nat * Image)) :
  forall (acc : list str) (w : World),
  exists sig w' evs,
    for_in ps acc (ocr_page env lang n) w = (sig, w') /\
    trace w' = trace w ++ evs /\
    forallb ocr_event evs = true /\
    ((exists a, sig = Normal a) \/ (exists e, sig = Raised e)).
Proof.
  induction ps as [|[i img] ps IH]; intros acc w.
  - exists (Normal acc), w, []. cbn. rewrite app_nil_r. repeat split; eauto.
  - cbn [for_in].
    destruct (ocr_page env lang n (i, img) acc w) as [sig1 w1] eqn:Hstep.
    unfold_py_in Hstep. cbn -[py str_of_nat] in Hstep.
    destruct (image_convert env img (py "L")) as [g|e]; cbn -[py str_of_nat] in Hstep.
    2:{ inversion Hstep; subst. do 3 eexists. split; [reflexivity|]. cbn -[py str_of_nat].
        split; [rewrite <- !app_assoc; reflexivity|]. split; [reflexivity|eauto]. }
    destruct (image_to_string env g lang empty_str) as [t|e]; cbn -[py str_of_nat] in Hstep.
    2:{ inversion Hstep; subst. do 3 eexists. split; [reflexivity|]. cbn -[py str_of_nat].
        split; [rewrite <- !app_assoc; reflexivity|]. split; [reflexivity|eauto]. }
    inversion Hstep; subst.
    match goal with
    | |- context [for_in ps ?a _ ?w0] =>
        destruct (IH a w0) as (sig & w' & evs & Heq & Htr & Hev & Hsig)
    end.
    rewrite Heq. exists sig, w'. eexists.
    split; [reflexivity|].
    rewrite Htr. cbn -[py str_of_nat].
    split; [rewrite <- !app_assoc; reflexivity|].
    split; [cbn; exact Hev|exact Hsig].
Qed.

Lemma ocr_loop_ok (lang : str) (n : nat) (images : list Image) (texts : list str) :
  Forall2 (page_reads env lang) images texts ->
  forall (start : nat) (acc : list str) (w : World),
  exists w' evs,
    for_in (combine (seq start (List.length images)) images) acc
           (ocr_page env lang n) w =
    (Normal (acc ++ map (fun p => page_block (fst p) (snd p))
                        (combine (seq start (List.length texts)) texts)), w') /\
    trace w' = trace w ++ evs /\
    forallb ocr_event evs = true.
Proof.
  induction 1 as [|img t images texts (g & Hg & Ht) _ IH]; intros start acc w.
  - exists w, []. cbn. rewrite !app_nil_r. auto.
  - cbn [List.length seq combine for_in map fst snd].
    destruct (ocr_page env lang n (start, img) acc w) as [sig1 w1] eqn:Hstep.
    unfold_py_in Hstep. rewrite Hg in Hstep. cbn -[py str_of_nat] in Hstep.
    rewrite Ht in Hstep. cbn -[py str_of_nat] in Hstep.
    inversion Hstep; subst.
    match goal with
    | |- context [for_in _ ?a _ ?w0] =>
        destruct (IH (S start) a w0) as (w' & evs & Heq & Htr & Hev)
    end.
    rewrite Heq. exists w'. eexists.
    split; [rewrite <- app_assoc; reflexivity|].
    rewrite Htr. cbn -[py str_of_nat].
    split; [rewrite <- !app_assoc; reflexivity|].
    cbn; exact Hev.
Qed.

Ltac dcase t := destruct t eqn:?; cbn -[py str_of_nat enumerate].

(** The [with] block returns or raises; it neither opens the file nor
    sleeps; without the poppler directory it does not rasterize. *)
Lemma ocr_all_pages_spec (p lang : str) (w : World) :
  exists sig w' evs,
    ocr_all_pages env p lang w = (sig, w') /\
    trace w' = trace w ++ evs /\
    filter is_io evs = [] /\
    ((exists r, sig = Returned r /\
                ((r = empty_str /\ last_level evs = Some ERROR) \/
                 last_level evs = Some INFO)) \/
     (exists e, sig = Raised e)) /\
    (os_path_exists env (poppler_dir env) = false ->
     filter is_rasterize evs = [] /\
     (sig = Returned empty_str \/ exists e, sig = Raised e)).
Proof.
  unfold ocr_all_pages, with_, call, when, logger_error, logger_info, emit, bind,
    pure, raise, return_.
  cbn -[py str_of_nat enumerate].
  dcase (tempdir_enter env).
  2:{ do 3 eexists. split; [reflexivity|]. cbn. split; [reflexivity|].
      split; [reflexivity|]. split; [eauto|]. intros _. split; eauto. }
  dcase (os_path_exists env (poppler_dir env)).
  2:{ dcase (tempdir_exit env).
      all: do 3 eexists; (split; [reflexivity|]); cbn -[py];
        (split; [rewrite <- !app_assoc; reflexivity|]);
        (split; [reflexivity|]); (split; [eauto 8|]); intros _; split; eauto. }
  dcase (convert_from_path env p 300%Z None None (poppler_dir env)).
  2:{ dcase (tempdir_exit env).
      all: do 3 eexists; (split; [reflexivity|]); cbn -[py];
        (split; [rewrite <- !app_assoc; reflexivity|]);
        (split; [reflexivity|]); (split; [eauto 8|]); discriminate. }
  match goal with
  | |- context [for_in ?ps ?a (ocr_page env lang ?n) ?w0] =>
      destruct (ocr_loop_spec lang n ps a w0) as (sig & w' & evs & Heq & Htr & Hev & Hsig)
  end.
  unfold bind, pure, emit in Heq. rewrite Heq.
  destruct (ocr_events_quiet evs Hev) as (Hio & Hras & Herr & Hinfo & Hlast).
  cbn -[py str_of_nat] in Htr.
  destruct Hsig as [[all_text ->]|[exc ->]]; cbn -[py str_of_nat join].
  all: dcase (tempdir_exit env).
  all: do 3 eexists; (split; [reflexivity|]); cbn -[py str_of_nat join];
    rewrite Htr;
    (split; [rewrite <- !app_assoc; reflexivity|]);
    (split; [cbn; rewrite !filter_app, Hio; reflexivity|]);
    (split; [|discriminate]).
  all: try (right; eauto; fail).
  all: left; eexists; split; [reflexivity|]; right.
  all: cbn [app last_level log_level]; rewrite last_level_app; reflexivity.
Qed.

Lemma retry_events_quiet (evs : list event) :
  forallb retry_event evs = true -> filter is_rasterize evs = [].
Proof.
  induction evs as [|ev evs IH]; simpl; [reflexivity|].
  intros H. apply andb_true_iff in H. destruct H as [Hev H].
  destruct ev; try discriminate; simpl; auto.
Qed.

(** Every run of [extract_text_from_pdf], whatever the environment. *)
Lemma pdf_run_spec (p lang : str) :
  exists s tr,
    extract_text_from_pdf env p lang = (PyValue s, tr) /\
    ((s = empty_str /\ last_level tr = Some ERROR) \/ last_level tr = Some INFO) /\
    (let o := EvOpen (os_path_normpath env p) in
     In (filter is_io tr)
        [[]; [o]; [o; EvSleep 1; o]; [o; EvSleep 1; o; EvSleep 1; o]]) /\
    (os_path_exists env (poppler_dir env) = false ->
     s = empty_str /\ filter is_rasterize tr = []).
Proof.
  unfold extract_text_from_pdf, run, extract_text_from_pdf_body, try_except.
  set (q := os_path_normpath env p).
  unfold bind at 1. unfold when.
  destruct (os_path_exists env q) eqn:Hex; cbn -[py range max_retries].
  2:{ do 2 eexists. split; [reflexivity|]. cbn. auto 10. }
  unfold bind at 1.
  destruct (retry_loop_spec q world0) as (sig & w1 & evs & Heq & Htr & Hsig & Hio & Hev).
  rewrite Heq. cbn in Htr.
  pose proof (retry_events_quiet evs Hev) as Hras.
  destruct Hsig as [-> | [-> Hlast]].
  2:{ do 2 eexists. split; [reflexivity|]. rewrite Htr.
      split; [auto|]. split; [cbn in Hio |- *; tauto|]. auto. }
  unfold bind at 1, logger_debug at 1, emit at 1.
  match goal with
  | |- context [ocr_all_pages env q lang ?w0] =>
      destruct (ocr_all_pages_spec q lang w0)
        as (sig & w2 & evs2 & Heq2 & Htr2 & Hio2 & Hsig2 & Hpop)
  end.
  rewrite Heq2. cbn -[py] in Htr2. rewrite Htr in Htr2.
  destruct Hsig2 as [(r & -> & Hr) | (e & ->)].
  - do 2 eexists. split; [reflexivity|]. rewrite Htr2.
    split.
    { rewrite !last_level_app.
      destruct Hr as [[-> Hl] | Hl]; rewrite Hl; auto. }
    split.
    { rewrite !filter_app, Hio2, app_nil_r. cbn -[In]. rewrite app_nil_r.
      cbn in Hio |- *. tauto. }
    intros Hmiss. destruct (Hpop Hmiss) as [Hr2 [Hs | [e Hs]]]; [|discriminate].
    inversion Hs; subst. split; [reflexivity|].
    rewrite !filter_app, Hras, Hr2. reflexivity.
  - unfold logger_error, emit, bind, return_. cbn -[py].
    do 2 eexists. split; [reflexivity|]. rewrite Htr2.
    split; [left; split; [reflexivity|]; rewrite last_level_app; reflexivity|].
    split.
    { rewrite !filter_app, Hio2, app_nil_r. cbn -[In py]. rewrite !app_nil_r.
      cbn in Hio |- *. tauto. }
    intros Hmiss. destruct (Hpop Hmiss) as [Hr2 _]. split; [reflexivity|].
    rewrite !filter_app, Hras, Hr2. reflexivity.
Qed.

Ltac zcbn :=
  cbn -[py str_of_nat decimal strip custom_config slice_to int_printable].

Ltac unfold_zone :=
  unfold extract_text_from_zone, run, extract_text_from_zone_body, try_except,
    _preprocess_image_for_ocr, format_zone, format_int, eval, str_int, call, when,
    logger_error, logger_warning, logger_debug, emit, bind, pure, raise, return_.

Ltac zone_step :=
  match goal with
  | |- context [os_path_exists ?e ?q] => destruct (os_path_exists e q) eqn:?
  | |- context [int_printable ?e ?z] => destruct (int_printable e z) eqn:?
  | |- context [convert_from_path ?e ?a ?b ?c ?d ?f] =>
      destruct (convert_from_path e a b c d f) as [[|? ?]|?] eqn:?
  | |- context [image_crop ?e ?i ?b] => destruct (image_crop e i b) eqn:?
  | |- context [image_convert ?e ?i ?m] => destruct (image_convert e i m) eqn:?
  | |- context [image_to_string ?e ?i ?l ?c] =>
      destruct (image_to_string e i l c) eqn:?
  end;
  zcbn.

(** Every run of [extract_text_from_zone], whatever the environment.
    It returns the empty string on a diagnostic, or the stripped OCR
    text; or, on an existing file with a page number the interpreter
    does not print, it raises with nothing logged.  The rasterizer is
    the first call when the file exists and page number and zone can be
    printed, and is not called otherwise. *)
Lemma zone_run_spec (p : str) (page_num : Z) (zone : Z * Z * Z * Z) (lang : str) :
  let q := os_path_normpath env p in
  let raster :=
    EvConvertFromPath q 300 (Some page_num) (Some page_num) (poppler_dir env) in
  exists r tr,
    extract_text_from_zone env p page_num zone lang = (r, tr) /\
    ((r = PyValue empty_str /\
      (last_level tr = Some ERROR \/ last_level tr = Some WARNING)) \/
     ((exists t, r = PyValue (strip t)) /\ last_level tr = Some DEBUG) \/
     ((exists e, r = PyRaise e) /\ tr = [] /\
      os_path_exists env q = true /\ int_printable env page_num = false)) /\
    filter is_io tr = [] /\
    (if os_path_exists env q
     then if int_printable env page_num
          then if zone_printable env zone
               then exists msg rest,
                      tr = EvLog DEBUG msg false :: raster :: rest /\
                      filter is_rasterize rest = []
               else r = PyValue empty_str /\
                    exists msg, tr = [EvLog ERROR msg true]
          else (exists e, str_int env page_num = Err e /\ r = PyRaise e) /\ tr = []
     else r = PyValue empty_str /\ exists msg, tr = [EvLog ERROR msg false]) /\
    filter is_crop tr =
      (if os_path_exists env q && int_printable env page_num
          && zone_printable env zone then
         match convert_from_path env q 300 (Some page_num) (Some page_num)
                                 (poppler_dir env) with
         | Ok (_ :: _) =>
             let '(x, y, w, h) := zone in [EvCrop (x, y, x + w, y + h)%Z]
         | _ => []
         end
       else []).
Proof.
  destruct zone as [[[x y] w] h].
  unfold zone_printable. unfold_zone. zcbn.
  repeat zone_step.
  all: do 2 eexists; (split; [reflexivity|]).
  all: zcbn.
  all: split;
    [first [left; split; [reflexivity|]; first [left; reflexivity|right; reflexivity]
           |right; left; split; [eexists; reflexivity|reflexivity]
           |right; right; split; [eexists; reflexivity|repeat split; reflexivity]]|].
  all: split; [reflexivity|]; split; [|reflexivity].
  all: first [do 2 eexists; split; reflexivity
             |split; [reflexivity|eexists; reflexivity]
             |split; [|reflexivity]; eexists; unfold str_int;
              match goal with H : int_printable _ _ = false |- _ => rewrite H end;
              split; reflexivity].
Qed.

(** [extract_text_from_zone] when page number and zone can be printed
    and every call succeeds: the stripped OCR text of the cropped,
    converted first image. *)
Lemma zone_run_ok (p : str) (page_num : Z) (x y w h : Z) (lang : str)
      (img : Image) (rest : list Image) (c g : Image) (t : str) :
  let q := os_path_normpath env p in
  os_path_exists env q = true ->
  int_printable env page_num = true ->
  zone_printable env (x, y, w, h) = true ->
  convert_from_path env q 300 (Some page_num) (Some page_num) (poppler_dir env)
  = Ok (img :: rest) ->
  image_crop env img (x, y, x + w, y + h)%Z = Ok c ->
  image_convert env c (py "L") = Ok g ->
  image_to_string env g lang custom_config = Ok t ->
  fst (extract_text_from_zone env p page_num (x, y, w, h) lang) = PyValue (strip t).
Proof.
  intros q Hex Hpage Hzone Hconv Hcrop Hgray Hocr.
  unfold zone_printable in Hzone.
  apply andb_true_iff in Hzone. destruct Hzone as [Hzone Hh].
  apply andb_true_iff in Hzone. destruct Hzone as [Hzone Hw].
  apply andb_true_iff in Hzone. destruct Hzone as [Hx Hy].
  unfold_zone. fold q. rewrite Hex, Hpage, Hx, Hy, Hw, Hh. zcbn.
  rewrite Hconv. zcbn. rewrite Hcrop. zcbn. rewrite Hgray. zcbn.
  rewrite Hocr. reflexivity.
Qed.

Lemma bytes_eqb_eq (a b : bytes) : bytes_eqb a b = true <-> a = b.
Proof.
  unfold bytes_eqb. destruct (list_eq_dec Byte.byte_eq_dec a b); split; congruence.
Qed.

Lemma bytes_eqb_neq (a b : bytes) : bytes_eqb a b = false <-> a <> b.
Proof.
  unfold bytes_eqb. destruct (list_eq_dec Byte.byte_eq_dec a b); split; congruence.
Qed.

Ltac unfold_retry :=
  unfold range, max_retries, open_attempt, try_except, with_, open_rb, file_read,
    file_close, call, when, logger_error, logger_warning, time_sleep, emit, bind,
    pure, raise, return_, break_.

Ltac locked_at H j :=
  let e := fresh "e" in let He := fresh "He" in
  destruct (H j) as [e He]; [unfold max_retries; lia|].

Ltac run_retry :=
  repeat (cbn -[py str_of_nat bytes_eqb firstn];
          match goal with
          | H : builtin_open _ _ _ = _ |- _ => rewrite H
          | H : f_read_err _ = _ |- _ => rewrite H
          | H : f_close_err _ = _ |- _ => rewrite H
          | H : bytes_eqb _ _ = _ |- _ => rewrite H
          end);
  cbn -[py str_of_nat bytes_eqb firstn].

(** The readiness loop on a file that opens at call [k] and starts
    with [%PDF]: the loop is left normally, no error is logged. *)
Lemma retry_loop_ok (q : str) (k : nat) (f : File) :
  k < max_retries -> opens_at env q k f -> header f = pdf_magic ->
  exists w',
    for_in (range max_retries) tt (open_attempt env q) world0 = (Normal tt, w') /\
    filter is_error (trace w') = [] /\
    filter is_io (trace w') = io_shape q (S k).
Proof.
  intros Hk (Hlocked & Hopen & Hread & Hclose) Hhdr.
  apply bytes_eqb_eq in Hhdr. unfold header in Hhdr.
  unfold_retry.
  destruct k as [|[|[|k]]]; [| | |unfold max_retries in Hk; lia].
  - run_retry. eexists. split; [reflexivity|]. split; reflexivity.
  - destruct (Hlocked 0) as [e0 He0]; [lia|].
    run_retry. eexists. split; [reflexivity|]. split; reflexivity.
  - destruct (Hlocked 0) as [e0 He0]; [lia|].
    destruct (Hlocked 1) as [e1 He1]; [lia|].
    run_retry. eexists. split; [reflexivity|]. split; reflexivity.
Qed.

(** The same file with another signature: the loop returns the empty
    string at call [k], after [k] sleeps. *)
Lemma retry_loop_bad_header (q : str) (k : nat) (f : File) :
  k < max_retries -> opens_at env q k f -> header f <> pdf_magic ->
  exists w',
    for_in (range max_retries) tt (open_attempt env q) world0
    = (Returned empty_str, w') /\
    filter is_io (trace w') = io_shape q (S k) /\
    filter is_rasterize (trace w') = [] /\
    last_level (trace w') = Some ERROR.
Proof.
  intros Hk (Hlocked & Hopen & Hread & Hclose) Hhdr.
  apply bytes_eqb_neq in Hhdr. unfold header in Hhdr.
  unfold_retry.
  destruct k as [|[|[|k]]]; [| | |unfold max_retries in Hk; lia].
  - run_retry. eexists. split; [reflexivity|]. repeat split; reflexivity.
  - destruct (Hlocked 0) as [e0 He0]; [lia|].
    run_retry. eexists. split; [reflexivity|]. repeat split; reflexivity.
  - destruct (Hlocked 0) as [e0 He0]; [lia|].
    destruct (Hlocked 1) as [e1 He1]; [lia|].
    run_retry. eexists. split; [reflexivity|]. repeat split; reflexivity.
Qed.

(** Every call of [open] raises: three attempts, two sleeps, the empty string. *)
Lemma retry_loop_locked (q : str) :
  (forall j, j < max_retries -> exists e, builtin_open env j q = Err e) ->
  exists w',
    for_in (range max_retries) tt (open_attempt env q) world0
    = (Returned empty_str, w') /\
    filter is_io (trace w') = io_shape q max_retries /\
    filter is_rasterize (trace w') = [] /\
    last_level (trace w') = Some ERROR.
Proof.
  intros Hlocked.
  destruct (Hlocked 0) as [e0 He0]; [unfold max_retries; lia|].
  destruct (Hlocked 1) as [e1 He1]; [unfold max_retries; lia|].
  destruct (Hlocked 2) as [e2 He2]; [unfold max_retries; lia|].
  unfold_retry. run_retry.
  eexists. split; [reflexivity|]. repeat split; reflexivity.
Qed.

(** The [with] block on a healthy environment: it returns the joined
    page blocks, logs no error and ends on the INFO record. *)
Lemma ocr_all_pages_ok (q lang : str) (images : list Image) (texts : list str) :
  os_path_exists env (poppler_dir env) = true ->
  (exists d, tempdir_enter env = Ok d) ->
  tempdir_exit env = Ok tt ->
  convert_from_path env q 300 None None (poppler_dir env) = Ok images ->
  Forall2 (page_reads env lang) images texts ->
  forall w, exists w' evs,
    ocr_all_pages env q lang w
    = (Returned (join page_sep (page_blocks texts)), w') /\
    trace w' = trace w ++ evs /\
    filter is_error evs = [] /\
    last_level evs = Some INFO.
Proof.
  intros Hpop [d Hin] Hout Hconv Hpages w.
  unfold ocr_all_pages, with_, call, when, logger_error, logger_info, emit, bind,
    pure, raise, return_.
  rewrite Hin, Hpop, Hconv, Hout. cbn -[py str_of_nat enumerate join].
  unfold enumerate.
  match goal with
  | |- context [for_in _ ?a (ocr_page env lang ?n) ?w0] =>
      destruct (ocr_loop_ok lang n images texts Hpages 0 a w0)
        as (w1 & evs & Heq & Htr & Hev)
  end.
  unfold bind, pure, emit in Heq. rewrite Heq.
  cbn -[py str_of_nat enumerate join] in Htr |- *.
  destruct (ocr_events_quiet evs Hev) as (_ & _ & Herr & _ & _).
  do 2 eexists. split; [reflexivity|].
  cbn -[py str_of_nat enumerate join]. rewrite Htr.
  split; [rewrite <- !app_assoc; reflexivity|].
  split.
  - cbn -[py]. rewrite !filter_app, Herr. reflexivity.
  - cbn [app last_level log_level]. rewrite last_level_app. reflexivity.
Qed.

(** [extract_text_from_pdf] on a valid document whose pages read as
    [texts]. *)
Lemma pdf_run_ok (p lang : str) (images : list Image) (texts : list str) :
  valid_document env p images ->
  Forall2 (page_reads env lang) images texts ->
  exists tr,
    extract_text_from_pdf env p lang
    = (PyValue (join page_sep (page_blocks texts)), tr) /\
    filter is_error tr = [] /\
    last_level tr = Some INFO.
Proof.
  intros (Hex & (k & f & Hk & Hopen & Hhdr) & Hpop & Hin & Hout & Hconv) Hpages.
  unfold extract_text_from_pdf, run, extract_text_from_pdf_body, try_except.
  set (q := os_path_normpath env p) in *.
  unfold bind at 1. unfold when. rewrite Hex. cbn -[py range max_retries].
  unfold bind at 1.
  destruct (retry_loop_ok q k f Hk Hopen Hhdr) as (w1 & Heq & Herr & _).
  rewrite Heq.
  unfold bind at 1, logger_debug at 1, emit at 1.
  match goal with
  | |- context [ocr_all_pages env q lang ?w0] =>
      destruct (ocr_all_pages_ok q lang images texts Hpop Hin Hout Hconv Hpages w0)
        as (w2 & evs & Heq2 & Htr2 & Herr2 & Hlast2)
  end.
  rewrite Heq2. cbn -[py] in Htr2.
  eexists. split; [reflexivity|]. rewrite Htr2.
  split.
  - rewrite !filter_app, Herr, Herr2. reflexivity.
  - rewrite last_level_app, Hlast2. reflexivity.
Qed.

Lemma filter_filter_sub {A} (f g : A -> bool) (l : list A) :
  (forall x, f x = true -> g x = true) ->
  filter f (filter g l) = filter f l.
Proof.
  intros Hsub. induction l as [|x l IH]; simpl; [reflexivity|].
  destruct (g x) eqn:Hg; simpl.
  - rewrite IH. reflexivity.
  - destruct (f x) eqn:Hf; [rewrite (Hsub x Hf) in Hg; discriminate|exact IH].
Qed.

Ltac enter_pdf q :=
  unfold extract_text_from_pdf, run, extract_text_from_pdf_body, try_except;
  fold q;
  unfold bind at 1; unfold when.

(** A missing file: one error record, the empty string, nothing else. *)
Lemma pdf_run_missing (p lang : str) :
  os_path_exists env (os_path_normpath env p) = false ->
  exists msg, extract_text_from_pdf env p lang
              = (PyValue empty_str, [EvLog ERROR msg false]).
Proof.
  intros Hex. set (q := os_path_normpath env p) in *.
  enter_pdf q. rewrite Hex. cbn -[py]. eexists. reflexivity.
Qed.

Lemma zone_run_missing (p : str) (page_num : Z) (zone : Z * Z * Z * Z) (lang : str) :
  os_path_exists env (os_path_normpath env p) = false ->
  exists msg, extract_text_from_zone env p page_num zone lang
              = (PyValue empty_str, [EvLog ERROR msg false]).
Proof.
  intros Hex.
  destruct (zone_run_spec p page_num zone lang)
    as (r & tr & Heq & _ & _ & Hpre & _).
  rewrite Hex in Hpre. destruct Hpre as [-> [msg ->]].
  exists msg. exact Heq.
Qed.

(** On an existing file, a page number the interpreter does not print
    makes the zone operation raise, with nothing logged. *)
Lemma zone_run_unprintable_page (p : str) (page_num : Z) (zone : Z * Z * Z * Z)
      (lang : str) :
  os_path_exists env (os_path_normpath env p) = true ->
  int_printable env page_num = false ->
  exists e,
    str_int env page_num = Err e /\
    extract_text_from_zone env p page_num zone lang = (PyRaise e, []).
Proof.
  intros Hex Hpage.
  destruct (zone_run_spec p page_num zone lang)
    as (r & tr & Heq & _ & _ & Hpre & _).
  rewrite Hex, Hpage in Hpre. destruct Hpre as [(e & He & ->) ->].
  exists e. split; [exact He|exact Heq].
Qed.

(** On an existing file and with a page number that prints, a zone the
    interpreter does not print ends the run in the handler. *)
Lemma zone_run_unprintable_zone (p : str) (page_num : Z) (zone : Z * Z * Z * Z)
      (lang : str) :
  os_path_exists env (os_path_normpath env p) = true ->
  int_printable env page_num = true ->
  zone_printable env zone = false ->
  exists msg,
    extract_text_from_zone env p page_num zone lang
    = (PyValue empty_str, [EvLog ERROR msg true]).
Proof.
  intros Hex Hpage Hzone.
  destruct (zone_run_spec p page_num zone lang)
    as (r & tr & Heq & _ & _ & Hpre & _).
  rewrite Hex, Hpage, Hzone in Hpre. destruct Hpre as [-> [msg ->]].
  exists msg. exact Heq.
Qed.

(** The run ends in the readiness loop when the loop returns. *)
Lemma pdf_run_stops (p lang : str) (w' : World) :
  let q := os_path_normpath env p in
  os_path_exists env q = true ->
  for_in (range max_retries) tt (open_attempt env q) world0
  = (Returned empty_str, w') ->
  extract_text_from_pdf env p lang = (PyValue empty_str, trace w').
Proof.
  intros q Hex Hloop. enter_pdf q. rewrite Hex. cbn -[py range max_retries].
  unfold bind at 1. rewrite Hloop. reflexivity.
Qed.

End Stages.

(** ** Properties of the two operations *)

(** *** C1: both operations are total *)




(** *** C2: the retry loop of the readiness check *)

Lemma open_count_bound (q : str) (tr : list event) :
  In (filter is_io tr) [io_shape q 0; io_shape q 1; io_shape q 2; io_shape q 3] ->
  List.length (filter is_open tr) <= max_retries.
Proof.
  intros Hin.
  rewrite <- (filter_filter_sub is_open is_io tr)
    by (intros [] H; try discriminate; reflexivity).
  unfold max_retries.
  destruct Hin as [<- | [<- | [<- | [<- | []]]]]; simpl; lia.
Qed.

Lemma pdf_run_bad_header {Image : Type} (env : Env Image) (p lang : str)
      (k : nat) (f : File) :
  let q := os_path_normpath env p in
  os_path_exists env q = true ->
  k < max_retries -> opens_at env q k f -> header f <> pdf_magic ->
  exists tr,
    extract_text_from_pdf env p lang = (PyValue empty_str, tr) /\
    filter is_io tr = io_shape q (S k) /\
    filter is_rasterize tr = [] /\
    last_level tr = Some ERROR.
Proof.
  intros q Hex Hk Hopen Hhdr.
  destruct (retry_loop_bad_header env q k f Hk Hopen Hhdr)
    as (w' & Hloop & Hio & Hras & Hlast).
  exists (trace w'). split; [|auto].
  apply pdf_run_stops; assumption.
Qed.

Lemma pdf_run_locked {Image : Type} (env : Env Image) (p lang : str) :
  let q := os_path_normpath env p in
  os_path_exists env q = true ->
  (forall j, j < max_retries -> exists e, builtin_open env j q = Err e) ->
  exists tr,
    extract_text_from_pdf env p lang = (PyValue empty_str, tr) /\
    filter is_io tr = io_shape q max_retries /\
    filter is_rasterize tr = [] /\
    last_level tr = Some ERROR.
Proof.
  intros q Hex Hlocked.
  destruct (retry_loop_locked env q Hlocked) as (w' & Hloop & Hio & Hras & Hlast).
  exists (trace w'). split; [|auto].
  apply pdf_run_stops; assumption.
Qed.

(** C2. In every run of [extract_text_from_pdf] the file is opened at
    most three times, with a sleep of one second between two attempts
    and nothing else in between.  When the file exists: an [open] that
    raises uses up one attempt; a file that opens at attempt [k] (the
    attempts before raised) and does not start with [%PDF] ends the run
    there with the empty string, after [k + 1] opens; three raising
    attempts end it with the empty string. *)
Theorem open_retry_semantics {Image : Type} (env : Env Image) (p lang : str) :
  let q := os_path_normpath env p in
  let run := extract_text_from_pdf env p lang in
  (In (filter is_io (snd run))
      [io_shape q 0; io_shape q 1; io_shape q 2; io_shape q 3] /\
   List.length (filter is_open (snd run)) <= max_retries) /\
  (os_path_exists env q = true ->
   (forall k f,
       k < max_retries -> opens_at env q k f -> header f <> pdf_magic ->
       fst run = PyValue empty_str /\ filter is_io (snd run) = io_shape q (S k)) /\
   ((forall j, j < max_retries -> exists e, builtin_open env j q = Err e) ->
    fst run = PyValue empty_str /\ filter is_io (snd run) = io_shape q max_retries)).
Proof.
  intros q run. split.
  - destruct (pdf_run_spec env p lang) as (s & tr & Heq & _ & Hio & _).
    subst run. rewrite Heq. cbn [snd].
    assert (Hin : In (filter is_io tr)
                     [io_shape q 0; io_shape q 1; io_shape q 2; io_shape q 3])
      by exact Hio.
    split; [exact Hin|]. exact (open_count_bound q tr Hin).
  - intros Hex. split.
    + intros k f Hk Hopen Hhdr.
      destruct (pdf_run_bad_header env p lang k f Hex Hk Hopen Hhdr)
        as (tr & Heq & Hio & _).
      subst run. rewrite Heq. split; [reflexivity|exact Hio].
    + intros Hlocked.
      destruct (pdf_run_locked env p lang Hex Hlocked) as (tr & Heq & Hio & _).
      subst run. rewrite Heq. split; [reflexivity|exact Hio].
Qed.

Lemma open_retry_semantics_witness :
  (fst (extract_text_from_pdf Sample.env_locked_then_gif Sample.doc Sample.deu)
   = PyValue empty_str /\
   filter is_io (snd (extract_text_from_pdf Sample.env_locked_then_gif
                                            Sample.doc Sample.deu))
   = [EvOpen Sample.doc; EvSleep 1; EvOpen Sample.doc]) /\
  (fst (extract_text_from_pdf Sample.env_all_locked Sample.doc Sample.deu)
   = PyValue empty_str /\
   filter is_io (snd (extract_text_from_pdf Sample.env_all_locked
                                            Sample.doc Sample.deu))
   = [EvOpen Sample.doc; EvSleep 1; EvOpen Sample.doc; EvSleep 1;
      EvOpen Sample.doc]).
Proof.
  split.
  - destruct (open_retry_semantics Sample.env_locked_then_gif Sample.doc Sample.deu)
      as [_ H].
    destruct (H eq_refl) as [Hbad _].
    apply (Hbad 1 (Sample.file_of Sample.gif_bytes)).
    + unfold max_retries. lia.
    + split; [|split; [reflexivity|split; reflexivity]].
      intros j Hj. assert (j = 0) as -> by lia.
      eexists. reflexivity.
    + discriminate.
  - destruct (open_retry_semantics Sample.env_all_locked Sample.doc Sample.deu)
      as [_ H].
    destruct (H eq_refl) as [_ Hlocked].
    apply Hlocked. intros j _. eexists. reflexivity.
Defined.

(** *** C3 and C4: the text of a whole document *)

Lemma page_blocks_length (texts : list str) :
  List.length (page_blocks texts) = List.length texts.
Proof.
  unfold page_blocks, enumerate.
  rewrite length_map, length_combine, length_seq. apply Nat.min_id.
Qed.

Lemma nth_error_enumerate_from {A} (l : list A) :
  forall (start i : nat) (a : A),
    nth_error l i = Some a ->
    nth_error (combine (seq start (List.length l)) l) i = Some (start + i, a).
Proof.
  induction l as [|x l IH]; intros start i a H.
  - destruct i; discriminate.
  - destruct i as [|i]; simpl in *.
    + inversion H; subst. rewrite Nat.add_0_r. reflexivity.
    + rewrite (IH (S start) i a H). f_equal. f_equal. lia.
Qed.

Lemma page_blocks_nth (texts : list str) (i : nat) (t : str) :
  nth_error texts i = Some t ->
  nth_error (page_blocks texts) i = Some (page_block i t).
Proof.
  intros H. unfold page_blocks, enumerate.
  rewrite nth_error_map, (nth_error_enumerate_from texts 0 i t H). reflexivity.
Qed.

Lemma count_marker_blocks (texts : list str) :
  Forall (fun t => count_occ_sub marker t = 0) texts ->
  forall start,
    list_sum (map (count_occ_sub marker)
                  (map (fun p => page_block (fst p) (snd p))
                       (combine (seq start (List.length texts)) texts)))
    = List.length texts.
Proof.
  induction 1 as [|t texts Ht _ IH]; intros start; [reflexivity|].
  cbn [List.length seq combine map fst snd].
  match goal with
  | |- list_sum (?a :: ?l) = _ => change (a + list_sum l = S (List.length texts))
  end.
  rewrite (count_marker_block start t Ht), IH. reflexivity.
Qed.

(** C3, as amended. On a valid document of N pages the result is the
    join, with [page_sep] (a blank line), of exactly N blocks in page
    order; block number i (from 1) is the header [--- Seite i ---], a
    newline and the text of page i.  When no page text itself holds the
    marker [--- Seite ], the result holds it exactly N times. *)
Theorem page_headers_seite {Image : Type} (env : Env Image) (p lang : str)
        (images : list Image) (texts : list str) :
  valid_document env p images ->
  Forall2 (page_reads env lang) images texts ->
  exists s,
    fst (extract_text_from_pdf env p lang) = PyValue s /\
    s = join page_sep (page_blocks texts) /\
    List.length (page_blocks texts) = List.length images /\
    (forall i t,
        nth_error texts i = Some t ->
        nth_error (page_blocks texts) i
        = Some (py "--- Seite " ++ str_of_nat (i + 1) ++ py " ---" ++ [10%N] ++ t)) /\
    (Forall (fun t => count_occ_sub marker t = 0) texts ->
     count_occ_sub marker s = List.length images).
Proof.
  intros Hvalid Hpages.
  destruct (pdf_run_ok env p lang images texts Hvalid Hpages) as (tr & Heq & _).
  pose proof (Forall2_length Hpages) as Hlen.
  exists (join page_sep (page_blocks texts)).
  rewrite Heq. split; [reflexivity|]. split; [reflexivity|].
  split; [rewrite page_blocks_length; symmetry; exact Hlen|].
  split; [exact (page_blocks_nth texts)|].
  intros Hclean. rewrite count_marker_join. unfold page_blocks, enumerate.
  rewrite (count_marker_blocks texts Hclean 0). symmetry. exact Hlen.
Qed.

Lemma sample_valid (pages : list str) :
  valid_document
    (Sample.env_of [Sample.doc; Sample.poppler]
                   (fun _ => Ok (Sample.file_of Sample.pdf_bytes)) (Ok pages))
    Sample.doc pages.
Proof.
  split; [reflexivity|].
  split.
  { exists 0, (Sample.file_of Sample.pdf_bytes).
    split; [unfold max_retries; lia|].
    split; [|reflexivity].
    split; [intros j Hj; lia|].
    split; [reflexivity|split; reflexivity]. }
  split; [reflexivity|].
  split; [eexists; reflexivity|].
  split; reflexivity.
Defined.

Lemma sample_reads (pages : list str) :
  Forall2 (page_reads
             (Sample.env_of [Sample.doc; Sample.poppler]
                            (fun _ => Ok (Sample.file_of Sample.pdf_bytes)) (Ok pages))
             Sample.deu)
          pages pages.
Proof.
  induction pages as [|t pages IH]; constructor; [|exact IH].
  exists t. split; reflexivity.
Defined.

Lemma page_headers_seite_witness :
  exists s,
    fst (extract_text_from_pdf Sample.env_two Sample.doc Sample.deu) = PyValue s /\
    count_occ_sub marker s = 2.
Proof.
  destruct (page_headers_seite Sample.env_two Sample.doc Sample.deu
              [Sample.invoice; Sample.receipt] [Sample.invoice; Sample.receipt]
              (sample_valid _) (sample_reads _))
    as (s & Hs & _ & _ & _ & Hcount).
  exists s. split; [exact Hs|].
  apply Hcount. repeat constructor.
Defined.

(** C3 as the claim states it fails.  The one-page document of
    [Sample.env_one] is valid, and its result holds no [--- Page 1 ---]
    and no [Page 1] at all: its only header reads [--- Seite 1 ---].
    And on the valid one-page document of [Sample.env_printed_header],
    whose page text is itself a header line, the result holds two
    markers, not one. *)
Lemma page_headers_not_page :
  (valid_document Sample.env_one Sample.doc [Sample.invoice] /\
   Forall2 (page_reads Sample.env_one Sample.deu) [Sample.invoice] [Sample.invoice] /\
   exists s,
     fst (extract_text_from_pdf Sample.env_one Sample.doc Sample.deu) = PyValue s /\
     s = py "--- Seite 1 ---
INVOICE" /\
     count_occ_sub (py "--- Page 1 ---") s = 0 /\
     contains (py "Page 1") s = false) /\
  (valid_document Sample.env_printed_header Sample.doc [Sample.printed_header] /\
   Forall2 (page_reads Sample.env_printed_header Sample.deu)
           [Sample.printed_header] [Sample.printed_header] /\
   exists s,
     fst (extract_text_from_pdf Sample.env_printed_header Sample.doc Sample.deu)
     = PyValue s /\
     count_occ_sub marker s = 2).
Proof.
  split.
  - split; [exact (sample_valid _)|].
    split; [exact (sample_reads _)|].
    eexists. split; [vm_compute; reflexivity|].
    split; [reflexivity|]. split; reflexivity.
  - split; [exact (sample_valid _)|].
    split; [exact (sample_reads _)|].
    eexists. split; [vm_compute; reflexivity|]. reflexivity.
Qed.

(** C4. On a valid document whose pages read as [t1 .. tN] the result
    is exactly the blocks [--- Seite i ---], newline, [ti], for i from 1
    to N, joined by two newlines; for two pages it is
    [--- Seite 1 ---\nt1\n\n--- Seite 2 ---\nt2]. *)
Theorem full_document_text {Image : Type} (env : Env Image) (p lang : str)
        (images : list Image) (texts : list str) :
  valid_document env p images ->
  Forall2 (page_reads env lang) images texts ->
  fst (extract_text_from_pdf env p lang)
  = PyValue (join (py "

")
               (map (fun p => py "--- Seite " ++ str_of_nat (fst p + 1) ++ py " ---"
                              ++ [10%N] ++ snd p)
                    (enumerate texts))) /\
  (forall t1 t2,
      texts = [t1; t2] ->
      fst (extract_text_from_pdf env p lang)
      = PyValue (py "--- Seite 1 ---
" ++ t1 ++ py "

--- Seite 2 ---
" ++ t2)).
Proof.
  intros Hvalid Hpages.
  destruct (pdf_run_ok env p lang images texts Hvalid Hpages) as (tr & Heq & _).
  rewrite Heq. split; [reflexivity|].
  intros t1 t2 ->. reflexivity.
Qed.

Lemma full_document_text_witness :
  fst (extract_text_from_pdf Sample.env_two Sample.doc Sample.deu)
  = PyValue (py "--- Seite 1 ---
INVOICE

--- Seite 2 ---
RECEIPT").
Proof.
  destruct (full_document_text Sample.env_two Sample.doc Sample.deu
              [Sample.invoice; Sample.receipt] [Sample.invoice; Sample.receipt]
              (sample_valid _) (sample_reads _))
    as [_ H].
  exact (H Sample.invoice Sample.receipt eq_refl).
Defined.

(** *** C5: a path that does not exist *)

(** C5. When the normalized path does not exist, both operations return
    the empty string; their whole trace is one error record, so the
    rasterizer is never called. *)
Theorem missing_file_no_rasterize {Image : Type} (env : Env Image) (p lang : str)
        (page_num : Z) (zone : Z * Z * Z * Z) :
  os_path_exists env (os_path_normpath env p) = false ->
  let full := extract_text_from_pdf env p lang in
  let part := extract_text_from_zone env p page_num zone lang in
  (fst full = PyValue empty_str /\ filter is_rasterize (snd full) = [] /\
   exists msg, snd full = [EvLog ERROR msg false]) /\
  (fst part = PyValue empty_str /\ filter is_rasterize (snd part) = [] /\
   exists msg, snd part = [EvLog ERROR msg false]).
Proof.
  intros Hex full part. split.
  - destruct (pdf_run_missing env p lang Hex) as [msg Heq].
    subst full. rewrite Heq. cbn [fst snd].
    split; [reflexivity|]. split; [reflexivity|]. exists msg. reflexivity.
  - destruct (zone_run_missing env p page_num zone lang Hex) as [msg Heq].
    subst part. rewrite Heq. cbn [fst snd].
    split; [reflexivity|]. split; [reflexivity|]. exists msg. reflexivity.
Qed.

Lemma missing_file_no_rasterize_witness :
  (fst (extract_text_from_pdf Sample.env_two Sample.missing Sample.deu)
   = PyValue empty_str /\
   filter is_rasterize
          (snd (extract_text_from_pdf Sample.env_two Sample.missing Sample.deu)) = []) /\
  (fst (extract_text_from_zone Sample.env_two Sample.missing 1 (0, 0, 200, 50)%Z
                               Sample.deu)
   = PyValue empty_str /\
   filter is_rasterize
          (snd (extract_text_from_zone Sample.env_two Sample.missing 1
                                       (0, 0, 200, 50)%Z Sample.deu)) = []).
Proof.
  destruct (missing_file_no_rasterize Sample.env_two Sample.missing Sample.deu 1
              (0, 0, 200, 50)%Z eq_refl)
    as [(H1 & H2 & _) (H3 & H4 & _)].
  repeat split; assumption.
Defined.

(** *** C6 and C7: what the zone operation does not check *)

(** C6. On an existing file that opens and does not start with [%PDF],
    [extract_text_from_pdf] rejects the file without rasterizing.
    [extract_text_from_zone] never opens the file and never sleeps,
    whatever its arguments; called with a page number and a zone the
    interpreter can print (they go into the debug record first), it
    goes on to the rasterizer: after that one debug record its first
    call is [convert_from_path] on the page. *)
Theorem zone_skips_signature_check {Image : Type} (env : Env Image) (p lang : str)
        (page_num : Z) (zone : Z * Z * Z * Z) (f : File) :
  let q := os_path_normpath env p in
  let full := extract_text_from_pdf env p lang in
  let part := extract_text_from_zone env p page_num zone lang in
  os_path_exists env q = true ->
  builtin_open env 0 q = Ok f -> sound f -> header f <> pdf_magic ->
  filter is_io (snd part) = [] /\
  (int_printable env page_num = true -> zone_printable env zone = true ->
   exists msg rest,
      snd part = EvLog DEBUG msg false
                 :: EvConvertFromPath q 300 (Some page_num) (Some page_num)
                                      (poppler_dir env)
                 :: rest) /\
  (fst full = PyValue empty_str /\ filter is_rasterize (snd full) = []).
Proof.
  intros q full part Hex Hopen Hsound Hhdr.
  destruct (zone_run_spec env p page_num zone lang)
    as (s & tr & Heq & _ & Hio & Hpre & _).
  fold q in Hpre. rewrite Hex in Hpre.
  subst part. rewrite Heq. cbn [snd].
  split; [exact Hio|]. split.
  - intros Hpage Hzone. rewrite Hpage, Hzone in Hpre.
    destruct Hpre as (msg & rest & Htr & _).
    exists msg, rest. exact Htr.
  - assert (Hat : opens_at env q 0 f).
    { split; [intros j Hj; lia|]. split; assumption. }
    destruct (pdf_run_bad_header env p lang 0 f Hex ltac:(unfold max_retries; lia)
                                 Hat Hhdr)
      as (tr' & Heq' & _ & Hras & _).
    subst full. rewrite Heq'. split; [reflexivity|exact Hras].
Qed.

Lemma zone_skips_signature_check_witness :
  (exists msg rest,
      snd (extract_text_from_zone Sample.env_gif Sample.doc 1 (0, 0, 200, 50)%Z
                                  Sample.deu)
      = EvLog DEBUG msg false
        :: EvConvertFromPath Sample.doc 300 (Some 1%Z) (Some 1%Z) Sample.poppler
        :: rest) /\
  fst (extract_text_from_zone Sample.env_gif Sample.doc 1 (0, 0, 200, 50)%Z Sample.deu)
  = PyValue (py "Invoice #123") /\
  fst (extract_text_from_pdf Sample.env_gif Sample.doc Sample.deu) = PyValue empty_str.
Proof.
  destruct (zone_skips_signature_check Sample.env_gif Sample.doc Sample.deu 1
              (0, 0, 200, 50)%Z (Sample.file_of Sample.gif_bytes)
              eq_refl eq_refl (conj eq_refl eq_refl) ltac:(discriminate))
    as (_ & Hpart & Hfull & _).
  destruct (Hpart eq_refl eq_refl) as (msg & rest & Htr).
  split; [exists msg, rest; exact Htr|]. split; [reflexivity|exact Hfull].
Defined.

(** C7. Without the poppler directory [extract_text_from_pdf] returns
    the empty string and never calls the rasterizer;
    [extract_text_from_zone] does not look for the directory: on an
    existing file (with a page number and a zone the interpreter can
    print) it calls the rasterizer with that directory all the same. *)
Theorem poppler_dir_checked_only_by_full {Image : Type} (env : Env Image)
        (p lang : str) (page_num : Z) (zone : Z * Z * Z * Z) :
  let q := os_path_normpath env p in
  let full := extract_text_from_pdf env p lang in
  let part := extract_text_from_zone env p page_num zone lang in
  os_path_exists env (poppler_dir env) = false ->
  (fst full = PyValue empty_str /\ filter is_rasterize (snd full) = []) /\
  (os_path_exists env q = true ->
   int_printable env page_num = true -> zone_printable env zone = true ->
   filter is_rasterize (snd part)
   = [EvConvertFromPath q 300 (Some page_num) (Some page_num) (poppler_dir env)]).
Proof.
  intros q full part Hpop. split.
  - destruct (pdf_run_spec env p lang) as (s & tr & Heq & _ & _ & Hmiss).
    destruct (Hmiss Hpop) as [-> Hras].
    subst full. rewrite Heq. split; [reflexivity|exact Hras].
  - intros Hex Hpage Hzone.
    destruct (zone_run_spec env p page_num zone lang)
      as (s & tr & Heq & _ & _ & Hpre & _).
    fold q in Hpre. rewrite Hex, Hpage, Hzone in Hpre.
    destruct Hpre as (msg & rest & Htr & Hrest).
    subst part. rewrite Heq. cbn [snd]. rewrite Htr.
    cbn [filter is_rasterize]. rewrite Hrest. reflexivity.
Qed.

Lemma poppler_dir_checked_only_by_full_witness :
  (fst (extract_text_from_pdf Sample.env_no_poppler Sample.doc Sample.deu)
   = PyValue empty_str /\
   filter is_rasterize
          (snd (extract_text_from_pdf Sample.env_no_poppler Sample.doc Sample.deu))
   = []) /\
  filter is_rasterize
         (snd (extract_text_from_zone Sample.env_no_poppler Sample.doc 1
                                      (0, 0, 200, 50)%Z Sample.deu))
  = [EvConvertFromPath Sample.doc 300 (Some 1%Z) (Some 1%Z) Sample.poppler].
Proof.
  destruct (poppler_dir_checked_only_by_full Sample.env_no_poppler Sample.doc
              Sample.deu 1 (0, 0, 200, 50)%Z eq_refl)
    as [Hfull Hpart].
  split; [exact Hfull|exact (Hpart eq_refl eq_refl eq_refl)].
Defined.

(** *** C8: the zone *)

(** C8, as amended.  For every zone [(x, y, w, h)] and page number the
    interpreter can print, whatever the bounds: once the rasterizer has
    given at least one image, the first one is cropped, once, to the
    box [(x, y, x + w, y + h)]; when cropping, grayscale conversion and
    OCR succeed, the result is the OCR text of that crop with [strip]
    applied.  No string the operation returns, for any input, starts or
    ends with whitespace. *)
Theorem zone_crop_and_strip {Image : Type} (env : Env Image) (p lang : str)
        (page_num x y w h : Z) :
  let q := os_path_normpath env p in
  let part := extract_text_from_zone env p page_num (x, y, w, h) lang in
  (forall s, fst part = PyValue s ->
             starts_with_space s = false /\ ends_with_space s = false) /\
  (forall img rest,
      os_path_exists env q = true ->
      int_printable env page_num = true ->
      zone_printable env (x, y, w, h) = true ->
      convert_from_path env q 300 (Some page_num) (Some page_num) (poppler_dir env)
      = Ok (img :: rest) ->
      filter is_crop (snd part) = [EvCrop (x, y, x + w, y + h)%Z] /\
      (forall c g t,
          image_crop env img (x, y, x + w, y + h)%Z = Ok c ->
          image_convert env c (py "L") = Ok g ->
          image_to_string env g lang custom_config = Ok t ->
          fst part = PyValue (strip t))).
Proof.
  intros q part.
  destruct (zone_run_spec env p page_num (x, y, w, h) lang)
    as (r & tr & Heq & Hcls & _ & _ & Hcrop).
  fold q in Hcrop. split.
  - intros s Hs. subst part. rewrite Heq in Hs. cbn [fst] in Hs.
    destruct Hcls as [[-> _] | [[[t ->] _] | ([e ->] & _)]].
    + inversion Hs. split; reflexivity.
    + inversion Hs. apply strip_clean.
    + discriminate.
  - intros img rest Hex Hpage Hzone Hconv. split.
    + subst part. rewrite Heq. cbn [snd].
      rewrite Hcrop, Hex, Hpage, Hzone, Hconv. reflexivity.
    + intros c g t Hc Hg Ht.
      exact (zone_run_ok env p page_num x y w h lang img rest c g t
                         Hex Hpage Hzone Hconv Hc Hg Ht).
Qed.

Lemma zone_crop_and_strip_witness :
  filter is_crop
         (snd (extract_text_from_zone Sample.env_two Sample.doc 1
                                      (10, 20, 200, 50)%Z Sample.deu))
  = [EvCrop (10, 20, 210, 70)%Z] /\
  fst (extract_text_from_zone Sample.env_gif Sample.doc 1 (0, 0, 200, 50)%Z Sample.deu)
  = PyValue (py "Invoice #123").
Proof.
  split.
  - destruct (zone_crop_and_strip Sample.env_two Sample.doc Sample.deu 1 10 20 200 50)
      as [_ H].
    destruct (H Sample.invoice [Sample.receipt] eq_refl eq_refl eq_refl eq_refl)
      as [Hcrop _].
    exact Hcrop.
  - destruct (zone_crop_and_strip Sample.env_gif Sample.doc Sample.deu 1 0 0 200 50)
      as [_ H].
    destruct (H Sample.invoice_zone [] eq_refl eq_refl eq_refl eq_refl) as [_ Hres].
    exact (Hres Sample.invoice_zone Sample.invoice_zone Sample.invoice_zone
                eq_refl eq_refl eq_refl).
Defined.

(** C8 as the claim states it fails: on the existing two-page file of
    [Sample.env_two] the rasterizer would give the page, but with the
    zone [(Sample.huge, 0, 200, 50)], whose [x] has 4301 digits, the
    image is never cropped: the run is one error record and the empty
    string. *)
Lemma zone_not_cropped :
  os_path_exists Sample.env_two (os_path_normpath Sample.env_two Sample.doc) = true /\
  convert_from_path Sample.env_two (os_path_normpath Sample.env_two Sample.doc) 300
                    (Some 1%Z) (Some 1%Z) (poppler_dir Sample.env_two)
  = Ok [Sample.invoice; Sample.receipt] /\
  exists msg,
    extract_text_from_zone Sample.env_two Sample.doc 1 (Sample.huge, 0, 200, 50)%Z
                           Sample.deu
    = (PyValue empty_str, [EvLog ERROR msg true]) /\
    filter is_crop [EvLog ERROR msg true] = [].
Proof.
  split; [reflexivity|]. split; [reflexivity|].
  destruct (zone_run_unprintable_zone Sample.env_two Sample.doc 1
              (Sample.huge, 0, 200, 50)%Z Sample.deu eq_refl eq_refl
              (huge_zone_not_printable _ _ _ _ _ _))
    as [msg Heq].
  exists msg. split; [exact Heq|reflexivity].
Qed.

(** *** C9 and C10: no page, and a file too short for a signature *)

(** C9. A valid document that rasterizes to no image: the run takes
    the success path.  Its result is the join of the empty list of
    blocks, the empty string; it logs no error and ends on the INFO
    record; the caller gets the very value a missing file gives. *)
Theorem zero_pages_success {Image : Type} (env : Env Image) (p lang : str) :
  valid_document env p [] ->
  let full := extract_text_from_pdf env p lang in
  fst full = PyValue (join page_sep (page_blocks [])) /\
  fst full = PyValue empty_str /\
  filter is_error (snd full) = [] /\
  last_level (snd full) = Some INFO /\
  (forall p',
      os_path_exists env (os_path_normpath env p') = false ->
      fst (extract_text_from_pdf env p' lang) = fst full).
Proof.
  intros Hvalid full.
  destruct (pdf_run_ok env p lang [] [] Hvalid (Forall2_nil _))
    as (tr & Heq & Herr & Hlast).
  subst full. rewrite Heq. cbn [fst snd].
  split; [reflexivity|]. split; [reflexivity|].
  split; [exact Herr|]. split; [exact Hlast|].
  intros p' Hmiss. destruct (pdf_run_missing env p' lang Hmiss) as [msg Heq'].
  rewrite Heq'. reflexivity.
Qed.

Lemma zero_pages_success_witness :
  fst (extract_text_from_pdf Sample.env_empty Sample.doc Sample.deu)
  = PyValue empty_str /\
  filter is_error (snd (extract_text_from_pdf Sample.env_empty Sample.doc Sample.deu))
  = [] /\
  last_level (snd (extract_text_from_pdf Sample.env_empty Sample.doc Sample.deu))
  = Some INFO /\
  fst (extract_text_from_pdf Sample.env_empty Sample.missing Sample.deu)
  = fst (extract_text_from_pdf Sample.env_empty Sample.doc Sample.deu).
Proof.
  destruct (zero_pages_success Sample.env_empty Sample.doc Sample.deu (sample_valid []))
    as (_ & Hres & Herr & Hlast & Hsame).
  split; [exact Hres|]. split; [exact Herr|]. split; [exact Hlast|].
  exact (Hsame Sample.missing eq_refl).
Defined.

Lemma short_header (f : File) :
  List.length (f_content f) < 4 ->
  List.length (header f) < 4 /\ header f <> pdf_magic.
Proof.
  intros Hlen. unfold header.
  assert (H : List.length (firstn 4 (f_content f)) < 4).
  { rewrite length_firstn. lia. }
  split; [exact H|]. intros Heq. rewrite Heq in H. simpl in H. lia.
Qed.

(** C10. An existing file that opens at once, reads and closes without
    error and holds fewer than four bytes: [f.read(4)] gives fewer than
    four bytes, which differ from [%PDF]; the run returns the empty
    string (it does not raise) after a single [open] and no sleep. *)
Theorem short_file_rejected {Image : Type} (env : Env Image) (p lang : str)
        (f : File) :
  let q := os_path_normpath env p in
  let full := extract_text_from_pdf env p lang in
  os_path_exists env q = true ->
  builtin_open env 0 q = Ok f -> sound f ->
  List.length (f_content f) < 4 ->
  List.length (header f) < 4 /\
  header f <> pdf_magic /\
  fst full = PyValue empty_str /\
  filter is_io (snd full) = [EvOpen q] /\
  last_level (snd full) = Some ERROR.
Proof.
  intros q full Hex Hopen Hsound Hlen.
  destruct (short_header f Hlen) as [Hshort Hhdr].
  split; [exact Hshort|]. split; [exact Hhdr|].
  assert (Hat : opens_at env q 0 f).
  { split; [intros j Hj; lia|]. split; assumption. }
  destruct (pdf_run_bad_header env p lang 0 f Hex ltac:(unfold max_retries; lia)
                               Hat Hhdr)
    as (tr & Heq & Hio & _ & Hlast).
  subst full. rewrite Heq. cbn [fst snd].
  split; [reflexivity|]. split; [exact Hio|exact Hlast].
Qed.

Lemma short_file_rejected_witness :
  fst (extract_text_from_pdf Sample.env_short Sample.doc Sample.deu)
  = PyValue empty_str /\
  filter is_io (snd (extract_text_from_pdf Sample.env_short Sample.doc Sample.deu))
  = [EvOpen Sample.doc].
Proof.
  destruct (short_file_rejected Sample.env_short Sample.doc Sample.deu
              (Sample.file_of Sample.short_bytes)
              eq_refl eq_refl (conj eq_refl eq_refl)
              ltac:(simpl; lia))
    as (_ & _ & Hres & Hio & _).
  split; [exact Hres|exact Hio].
Defined.

(** ** The constructor *)

Section SetupFacts.
Context {Image : Type} (env : Env Image) (expandvars : str -> str).

Lemma setup_loop_spec (paths : list str) (st : PyTesseract) :
  let st' := _setup_tesseract_loop env expandvars paths st in
  (exists path msg,
      found_at env expandvars paths path /\
      tesseract_cmd st' = expandvars path /\
      setup_log st' = setup_log st ++ [EvLog DEBUG msg false]) \/
  (none_found env expandvars paths /\
   tesseract_cmd st' = tesseract_cmd st /\
   exists msg, setup_log st' = setup_log st ++ [EvLog WARNING msg false]).
Proof.
  induction paths as [|c paths IH]; cbn -[py].
  - right. split; [reflexivity|]. split; [reflexivity|]. eexists. reflexivity.
  - destruct (os_path_exists env (expandvars c)) eqn:Hc; cbn -[py].
    + left. exists c. eexists. split; [|split; reflexivity].
      exists [], paths. split; [reflexivity|]. split; [exact Hc|reflexivity].
    + destruct IH as [(path & msg & (pre & post & Hsplit & Hex & Hpre) & Hcmd & Hlog)
                     | (Hnone & Hcmd & Hlog)].
      * left. exists path, msg. split; [|split; assumption].
        exists (c :: pre), post. split; [rewrite Hsplit; reflexivity|].
        split; [exact Hex|]. cbn. rewrite Hc. exact Hpre.
      * right. split; [|split; assumption].
        unfold none_found in *. cbn. rewrite Hc. exact Hnone.
Qed.

Lemma setup_loop_cmd (paths : list str) (st : PyTesseract) :
  tesseract_cmd (_setup_tesseract_loop env expandvars paths st) = tesseract_cmd st \/
  (forall st2,
      tesseract_cmd (_setup_tesseract_loop env expandvars paths st2)
      = tesseract_cmd (_setup_tesseract_loop env expandvars paths st)).
Proof.
  induction paths as [|c paths IH]; cbn -[py]; [left; reflexivity|].
  destruct (os_path_exists env (expandvars c)); [right; reflexivity|exact IH].
Qed.

(** X1. [_setup_tesseract] leaves one log record.  Either it sets
    [tesseract_cmd] to the expansion of the first candidate whose
    expansion exists (a DEBUG record), or no candidate exists, the
    variable keeps its value and the record is a WARNING. *)
Theorem setup_picks_first_existing (st : PyTesseract) :
  let st' := _setup_tesseract env expandvars st in
  (exists path msg,
      found_at env expandvars tesseract_paths path /\
      tesseract_cmd st' = expandvars path /\
      os_path_exists env (tesseract_cmd st') = true /\
      setup_log st' = setup_log st ++ [EvLog DEBUG msg false]) \/
  (none_found env expandvars tesseract_paths /\
   tesseract_cmd st' = tesseract_cmd st /\
   exists msg, setup_log st' = setup_log st ++ [EvLog WARNING msg false]).
Proof.
  intros st'. subst st'. unfold _setup_tesseract.
  destruct (setup_loop_spec tesseract_paths st)
    as [(path & msg & Hfound & Hcmd & Hlog) | H]; [left|right; exact H].
  exists path, msg. split; [exact Hfound|]. split; [exact Hcmd|].
  split; [|exact Hlog].
  rewrite Hcmd. destruct Hfound as (pre & post & _ & Hex & _). exact Hex.
Qed.

(** X2. Constructing a second processor leaves [tesseract_cmd] as the
    first construction set it. *)
Theorem setup_twice_same_cmd (st : PyTesseract) :
  tesseract_cmd (__init__ env expandvars (__init__ env expandvars st))
  = tesseract_cmd (__init__ env expandvars st).
Proof.
  unfold __init__, _setup_tesseract.
  destruct (setup_loop_cmd tesseract_paths st) as [Hsame | Hfix].
  - destruct (setup_loop_cmd tesseract_paths
                (_setup_tesseract_loop env expandvars tesseract_paths st))
      as [H | H]; [exact H|].
    symmetry. exact (H st).
  - exact (Hfix _).
Qed.

End SetupFacts.

(** ** More on [extract_text_from_zone] *)

Section ZoneFacts.
Context {Image : Type} (env : Env Image).

Ltac unfold_zone :=
  unfold extract_text_from_zone, run, extract_text_from_zone_body, try_except,
    _preprocess_image_for_ocr, format_zone, format_int, eval, str_int, call, when,
    logger_error, logger_warning, logger_debug, emit, bind, pure, raise, return_.

Ltac zcbn :=
  cbn -[py str_of_nat decimal strip custom_config slice_to int_printable].

Ltac zone_case :=
  match goal with
  | |- context [os_path_exists ?e ?q] => destruct (os_path_exists e q) eqn:?
  | |- context [int_printable ?e ?z] => destruct (int_printable e z) eqn:?
  | |- context [convert_from_path ?e ?a ?b ?c ?d ?f] =>
      destruct (convert_from_path e a b c d f) as [[|? ?]|?] eqn:?
  | |- context [image_crop ?e ?i ?b] => destruct (image_crop e i b) eqn:?
  | |- context [image_convert ?e ?i ?m] => destruct (image_convert e i m) eqn:?
  | |- context [image_to_string ?e ?i ?l ?c] =>
      destruct (image_to_string e i l c) eqn:?
  end; zcbn.

Lemma zone_printable_parts (x y w h : Z) :
  zone_printable env (x, y, w, h) = true ->
  int_printable env x = true /\ int_printable env y = true /\
  int_printable env w = true /\ int_printable env h = true.
Proof.
  unfold zone_printable. intros H.
  apply andb_true_iff in H. destruct H as [H Hh].
  apply andb_true_iff in H. destruct H as [H Hw].
  apply andb_true_iff in H. destruct H as [Hx Hy].
  auto.
Qed.

Ltac enter_zone q Hex Hpage Hzone :=
  let Hx := fresh "Hx" in let Hy := fresh "Hy" in
  let Hw := fresh "Hw" in let Hh := fresh "Hh" in
  destruct (zone_printable_parts _ _ _ _ Hzone) as (Hx & Hy & Hw & Hh);
  unfold_zone; fold q; rewrite Hex, Hpage, Hx, Hy, Hw, Hh; zcbn.

(** X3. When the rasterizer gives no image for the page (page number
    and zone being ints the interpreter can print), the zone operation
    returns the empty string after a single warning: it does not crop
    and does not run OCR. *)
Theorem zone_empty_page_set (p lang : str) (page_num x y w h : Z) :
  let q := os_path_normpath env p in
  os_path_exists env q = true ->
  int_printable env page_num = true ->
  zone_printable env (x, y, w, h) = true ->
  convert_from_path env q 300 (Some page_num) (Some page_num) (poppler_dir env)
  = Ok [] ->
  exists dbg warn,
    extract_text_from_zone env p page_num (x, y, w, h) lang
    = (PyValue empty_str,
       [EvLog DEBUG dbg false;
        EvConvertFromPath q 300 (Some page_num) (Some page_num) (poppler_dir env);
        EvLog WARNING warn false]).
Proof.
  intros q Hex Hpage Hzone Hconv. enter_zone q Hex Hpage Hzone.
  rewrite Hconv. zcbn. rewrite ?Hpage. zcbn.
  do 2 eexists. reflexivity.
Qed.

(** X4. A zone extraction in which every call succeeds (page number
    and zone being ints the interpreter can print) makes exactly four
    calls, in this order: rasterize the one page at 300 DPI, crop,
    convert to grayscale, OCR with the configuration [--oem 3 --psm 6]
    and the caller's language.  It logs at debug level only. *)
Theorem zone_call_order (p lang : str) (page_num x y w h : Z)
        (img : Image) (rest : list Image) (c g : Image) (t : str) :
  let q := os_path_normpath env p in
  let part := extract_text_from_zone env p page_num (x, y, w, h) lang in
  os_path_exists env q = true ->
  int_printable env page_num = true ->
  zone_printable env (x, y, w, h) = true ->
  convert_from_path env q 300 (Some page_num) (Some page_num) (poppler_dir env)
  = Ok (img :: rest) ->
  image_crop env img (x, y, x + w, y + h)%Z = Ok c ->
  image_convert env c (py "L") = Ok g ->
  image_to_string env g lang custom_config = Ok t ->
  calls (snd part)
  = [EvConvertFromPath q 300 (Some page_num) (Some page_num) (poppler_dir env);
     EvCrop (x, y, x + w, y + h)%Z;
     EvConvert (py "L");
     EvImageToString lang (py "--oem 3 --psm 6")] /\
  filter is_diagnostic (snd part) = [].
Proof.
  intros q part Hex Hpage Hzone Hconv Hcrop Hgray Hocr. subst part.
  enter_zone q Hex Hpage Hzone.
  rewrite Hconv. zcbn. rewrite Hcrop. zcbn. rewrite Hgray. zcbn. rewrite Hocr. zcbn.
  split; reflexivity.
Qed.

(** X5. A library call that raises ends the zone operation (called
    with a page number and a zone the interpreter can print) with the
    empty string and an error record carrying the traceback.  When the
    rasterizer raises, nothing is called after it; when cropping raises
    (a zone the image library rejects), neither grayscale conversion
    nor OCR is called. *)
Theorem zone_library_failure (p lang : str) (page_num x y w h : Z) :
  let q := os_path_normpath env p in
  let part := extract_text_from_zone env p page_num (x, y, w, h) lang in
  let raster :=
    EvConvertFromPath q 300 (Some page_num) (Some page_num) (poppler_dir env) in
  os_path_exists env q = true ->
  int_printable env page_num = true ->
  zone_printable env (x, y, w, h) = true ->
  (forall e,
      convert_from_path env q 300 (Some page_num) (Some page_num) (poppler_dir env)
      = Err e ->
      exists dbg msg,
        part = (PyValue empty_str,
                [EvLog DEBUG dbg false; raster; EvLog ERROR msg true])) /\
  (forall img rest e,
      convert_from_path env q 300 (Some page_num) (Some page_num) (poppler_dir env)
      = Ok (img :: rest) ->
      image_crop env img (x, y, x + w, y + h)%Z = Err e ->
      exists dbg msg,
        part = (PyValue empty_str,
                [EvLog DEBUG dbg false; raster; EvCrop (x, y, x + w, y + h)%Z;
                 EvLog ERROR msg true])).
Proof.
  intros q part raster Hex Hpage Hzone. subst part raster. split.
  - intros e Hconv. enter_zone q Hex Hpage Hzone.
    rewrite Hconv. zcbn. rewrite ?Hpage. zcbn.
    do 2 eexists. reflexivity.
  - intros img rest e Hconv Hcrop. enter_zone q Hex Hpage Hzone.
    rewrite Hconv. zcbn. rewrite Hcrop. zcbn. rewrite ?Hpage. zcbn.
    do 2 eexists. reflexivity.
Qed.

(** X6. Every run of the zone operation logs at most one record at
    warning or error level, and that record is the last event of the
    run; a run that logs one returns the empty string. *)
Theorem zone_one_diagnostic (p lang : str) (page_num : Z) (zone : Z * Z * Z * Z) :
  let part := extract_text_from_zone env p page_num zone lang in
  filter is_diagnostic (snd part) = [] \/
  (exists pre ev,
      snd part = pre ++ [ev] /\ is_diagnostic ev = true /\
      filter is_diagnostic pre = [] /\ fst part = PyValue empty_str).
Proof.
  destruct zone as [[[x y] w] h]. intros part. subst part.
  unfold_zone. zcbn.
  repeat zone_case.
  all: try (left; reflexivity).
  all: right; eexists (removelast _), (last _ EvClose).
  all: split; [apply app_removelast_last; discriminate|].
  all: repeat split; reflexivity.
Qed.

(** X14. On an existing file, the ints of the call are printed into the
    debug record before any library call.  A page number of more
    digits than the interpreter's limit makes the operation raise the
    [ValueError] of the conversion to its caller, with nothing logged
    and nothing called (the handler prints the page number again).  With
    a page number that prints, a zone coordinate over the limit ends
    the run with the empty string and one error record, and no library
    call. *)
Theorem zone_unprintable_ints (p lang : str) (page_num : Z) (zone : Z * Z * Z * Z) :
  let part := extract_text_from_zone env p page_num zone lang in
  os_path_exists env (os_path_normpath env p) = true ->
  (int_printable env page_num = false ->
   exists e, str_int env page_num = Err e /\ part = (PyRaise e, [])) /\
  (int_printable env page_num = true -> zone_printable env zone = false ->
   exists msg, part = (PyValue empty_str, [EvLog ERROR msg true])).
Proof.
  intros part Hex. subst part. split.
  - intros Hpage. exact (zone_run_unprintable_page env p page_num zone lang Hex Hpage).
  - intros Hpage Hzone.
    exact (zone_run_unprintable_zone env p page_num zone lang Hex Hpage Hzone).
Qed.

End ZoneFacts.

Lemma zone_call_order_witness :
  calls (snd (extract_text_from_zone Sample.env_two Sample.doc 2 (10, 20, 200, 50)%Z
                                     Sample.deu))
  = [EvConvertFromPath Sample.doc 300 (Some 2%Z) (Some 2%Z) Sample.poppler;
     EvCrop (10, 20, 210, 70)%Z;
     EvConvert (py "L");
     EvImageToString Sample.deu (py "--oem 3 --psm 6")].
Proof.
  destruct (zone_call_order Sample.env_two Sample.doc Sample.deu 2 10 20 200 50
              Sample.invoice [Sample.receipt] Sample.invoice Sample.invoice
              Sample.invoice eq_refl eq_refl eq_refl eq_refl eq_refl eq_refl eq_refl)
    as [H _].
  exact H.
Defined.

Lemma zone_empty_page_set_witness :
  fst (extract_text_from_zone Sample.env_empty Sample.doc 5 (0, 0, 10, 10)%Z
                              Sample.deu)
  = PyValue empty_str /\
  calls (snd (extract_text_from_zone Sample.env_empty Sample.doc 5 (0, 0, 10, 10)%Z
                                     Sample.deu))
  = [EvConvertFromPath Sample.doc 300 (Some 5%Z) (Some 5%Z) Sample.poppler].
Proof.
  destruct (zone_empty_page_set Sample.env_empty Sample.doc Sample.deu 5
              0 0 10 10 eq_refl eq_refl eq_refl eq_refl)
    as (dbg & warn & H).
  rewrite H. split; reflexivity.
Defined.

Lemma zone_library_failure_witness :
  fst (extract_text_from_zone (Sample2.with_crop_error Sample.env_two) Sample.doc 1
                              (0, 0, 99999, 99999)%Z Sample.deu)
  = PyValue empty_str /\
  filter is_ocr
         (snd (extract_text_from_zone (Sample2.with_crop_error Sample.env_two)
                                      Sample.doc 1 (0, 0, 99999, 99999)%Z Sample.deu))
  = [].
Proof.
  destruct (zone_library_failure (Sample2.with_crop_error Sample.env_two)
              Sample.doc Sample.deu 1 0 0 99999 99999 eq_refl eq_refl eq_refl)
    as [_ H].
  destruct (H Sample.invoice [Sample.receipt] Sample2.boom eq_refl eq_refl)
    as (dbg & msg & Heq).
  rewrite Heq. split; reflexivity.
Defined.

Lemma zone_unprintable_ints_witness :
  (exists e,
      str_int Sample.env_two Sample.huge = Err e /\
      extract_text_from_zone Sample.env_two Sample.doc Sample.huge (0, 0, 200, 50)%Z
                             Sample.deu
      = (PyRaise e, [])) /\
  (exists msg,
      extract_text_from_zone Sample.env_two Sample.doc 1 (Sample.huge, 0, 200, 50)%Z
                             Sample.deu
      = (PyValue empty_str, [EvLog ERROR msg true])).
Proof.
  split.
  - destruct (zone_unprintable_ints Sample.env_two Sample.doc Sample.deu Sample.huge
                (0, 0, 200, 50)%Z eq_refl)
      as [H _].
    exact (H (huge_not_printable _ _ _)).
  - destruct (zone_unprintable_ints Sample.env_two Sample.doc Sample.deu 1
                (Sample.huge, 0, 200, 50)%Z eq_refl)
      as [_ H].
    exact (H eq_refl (huge_zone_not_printable _ _ _ _ _ _)).
Defined.

(** ** More on [extract_text_from_pdf] *)

Section PdfFacts.
Context {Image : Type} (env : Env Image).

Ltac guard_step :=
  cbn -[py str_of_nat bytes_eqb firstn];
  match goal with
  | |- context [builtin_open ?e ?n ?p] =>
      destruct (builtin_open e n p) as [[? [?|] [?|]]|?] eqn:?
  | |- context [bytes_eqb ?a ?b] => destruct (bytes_eqb a b) eqn:?
  end.

Ltac use_opens :=
  repeat match goal with
         | H : builtin_open _ _ _ = _ |- _ => rewrite H
         end.

Ltac seen_at k :=
  exists k; split; [unfold max_retries; lia|];
  eexists; split; [eassumption|]; split; [reflexivity|];
  apply bytes_eqb_eq; assumption.

(** The readiness loop, from the start of a run: it is left normally
    only after a call of [open] gave a file read as [%PDF], and every
    file it opened it also closed. *)
Lemma retry_loop_guard (q : str) :
  exists sig w',
    for_in (range max_retries) tt (open_attempt env q) world0 = (sig, w') /\
    (sig = Returned empty_str \/
     (sig = Normal tt /\ exists k, k < max_retries /\ signature_seen env q k)) /\
    List.length (filter is_close (trace w'))
    = opened env q (List.length (filter is_open (trace w'))) /\
    forallb retry_event (trace w') = true.
Proof.
  unfold range, max_retries, open_attempt, try_except, with_, open_rb, file_read,
    file_close, call, when, logger_error, logger_warning, time_sleep, emit, bind,
    pure, raise, return_, break_.
  repeat guard_step.
  all: cbn -[py str_of_nat bytes_eqb firstn].
  all: do 2 eexists; split; [reflexivity|].
  all: cbn -[py str_of_nat bytes_eqb firstn opened].
  all: split;
    [first [left; reflexivity
           |right; split; [reflexivity|];
            unfold signature_seen, header; cbn [f_content f_read_err];
            first [seen_at 0 | seen_at 1 | seen_at 2]]|].
  all: split; [unfold opened; cbn [seq filter]; use_opens; reflexivity|reflexivity].
Qed.

Lemma retry_events_calm (evs : list event) :
  forallb retry_event evs = true ->
  filter is_tempdir evs = [] /\ filter is_ocr evs = [].
Proof.
  induction evs as [|ev evs IH]; simpl; [auto|].
  intros H. apply andb_true_iff in H. destruct H as [Hev H].
  destruct (IH H) as [H1 H2].
  destruct ev; try discriminate; simpl; auto.
Qed.

Lemma ocr_events_calm (evs : list event) :
  forallb ocr_event evs = true ->
  filter is_tempdir evs = [] /\ filter is_open evs = [] /\
  filter is_close evs = [].
Proof.
  induction evs as [|ev evs IH]; simpl; [auto|].
  intros H. apply andb_true_iff in H. destruct H as [Hev H].
  destruct (IH H) as (H1 & H2 & H3).
  destruct ev; try discriminate; simpl; auto.
Qed.

Ltac unfold_page_in H :=
  unfold ocr_page, _preprocess_image_for_ocr, call, logger_debug, emit, bind,
    pure, raise in H.

(** The page loop, whatever the pages do: it ends with one block per
    page appended in page order, or with an exception. *)
Lemma ocr_loop_blocks (lang : str) (n : nat) (images : list Image) :
  forall (start : nat) (acc : list str) (w : World),
  exists sig w' evs,
    for_in (combine (seq start (List.length images)) images) acc
           (ocr_page env lang n) w = (sig, w') /\
    trace w' = trace w ++ evs /\
    forallb ocr_event evs = true /\
    ((exists texts,
         sig = Normal (acc ++ map (fun p => page_block (fst p) (snd p))
                                  (combine (seq start (List.length texts)) texts))) \/
     (exists e, sig = Raised e)).
Proof.
  induction images as [|img images IH]; intros start acc w.
  - exists (Normal acc), w, []. cbn. rewrite app_nil_r.
    split; [reflexivity|]. split; [reflexivity|]. split; [reflexivity|].
    left. exists []. cbn. rewrite app_nil_r. reflexivity.
  - cbn [List.length seq combine for_in].
    destruct (ocr_page env lang n (start, img) acc w) as [sig1 w1] eqn:Hstep.
    unfold_page_in Hstep. cbn -[py str_of_nat] in Hstep.
    destruct (image_convert env img (py "L")) as [g|e]; cbn -[py str_of_nat] in Hstep.
    2:{ inversion Hstep; subst. do 3 eexists. split; [reflexivity|]. cbn -[py str_of_nat].
        split; [rewrite <- !app_assoc; reflexivity|]. split; [reflexivity|eauto]. }
    destruct (image_to_string env g lang empty_str) as [t|e]; cbn -[py str_of_nat] in Hstep.
    2:{ inversion Hstep; subst. do 3 eexists. split; [reflexivity|]. cbn -[py str_of_nat].
        split; [rewrite <- !app_assoc; reflexivity|]. split; [reflexivity|eauto]. }
    inversion Hstep; subst.
    match goal with
    | |- context [for_in _ ?a _ ?w0] =>
        destruct (IH (S start) a w0) as (sig & w' & evs & Heq & Htr & Hev & Hsig)
    end.
    rewrite Heq. exists sig, w'. eexists.
    split; [reflexivity|].
    rewrite Htr. cbn -[py str_of_nat].
    split; [rewrite <- !app_assoc; reflexivity|].
    split; [cbn; exact Hev|].
    destruct Hsig as [[texts ->] | [e ->]]; [left|right; eauto].
    exists (t :: texts). cbn [List.length seq combine map fst snd].
    rewrite <- app_assoc. reflexivity.
Qed.

Ltac pcase t := destruct t eqn:?; cbn -[py str_of_nat enumerate join].

(** The [with] block, whatever the environment. *)
Lemma ocr_all_pages_shape (q lang : str) (w : World) :
  exists sig w' evs,
    ocr_all_pages env q lang w = (sig, w') /\
    trace w' = trace w ++ evs /\
    filter is_tempdir evs
    = (if is_ok (tempdir_enter env) then [EvTempDirEnter; EvTempDirExit]
       else [EvTempDirEnter]) /\
    (filter is_rasterize evs = [] \/
     (filter is_rasterize evs
      = [EvConvertFromPath q 300 None None (poppler_dir env)] /\
      os_path_exists env (poppler_dir env) = true)) /\
    (filter is_open evs = [] /\ filter is_close evs = []) /\
    ((exists texts, sig = Returned (join page_sep (page_blocks texts))) \/
     (exists e, sig = Raised e)) /\
    (is_ok (tempdir_exit env) = false -> exists e, sig = Raised e).
Proof.
  unfold ocr_all_pages, with_, call, when, logger_error, logger_info, emit, bind,
    pure, raise, return_.
  cbn -[py str_of_nat enumerate].
  pcase (tempdir_enter env).
  2:{ do 3 eexists. split; [reflexivity|]. cbn. split; [reflexivity|].
      split; [reflexivity|]. split; [auto|]. split; [auto|]. split; eauto. }
  pcase (os_path_exists env (poppler_dir env)).
  2:{ pcase (tempdir_exit env).
      all: do 3 eexists; (split; [reflexivity|]); cbn -[py];
        (split; [rewrite <- !app_assoc; reflexivity|]);
        (split; [reflexivity|]); (split; [left; reflexivity|]);
        (split; [split; reflexivity|]); split;
        [first [left; exists []; reflexivity | right; eauto]
        |first [discriminate | eauto]]. }
  destruct (convert_from_path env q 300%Z None None (poppler_dir env))
    as [images|exc] eqn:?; cbn -[py str_of_nat enumerate join].
  2:{ pcase (tempdir_exit env).
      all: do 3 eexists; (split; [reflexivity|]); cbn -[py];
        (split; [rewrite <- !app_assoc; reflexivity|]);
        (split; [reflexivity|]); (split; [right; split; reflexivity|]);
        (split; [split; reflexivity|]); split; [right; eauto|eauto]. }
  unfold enumerate.
  match goal with
  | |- context [for_in _ ?a (ocr_page env lang ?n) ?w0] =>
      destruct (ocr_loop_blocks lang n images 0 a w0)
        as (sig & w' & evs & Heq & Htr & Hev & Hsig)
  end.
  unfold bind, pure, emit in Heq. rewrite Heq.
  destruct (ocr_events_quiet evs Hev) as (_ & Hras & _).
  destruct (ocr_events_calm evs Hev) as (Htmp & Hop & Hcl).
  cbn -[py str_of_nat] in Htr.
  destruct Hsig as [[texts ->]|[exc2 ->]]; cbn -[py str_of_nat join].
  all: pcase (tempdir_exit env).
  all: do 3 eexists; (split; [reflexivity|]); cbn -[py str_of_nat join];
    rewrite Htr;
    (split; [rewrite <- !app_assoc; reflexivity|]);
    (split; [cbn; rewrite !filter_app, Htmp; reflexivity|]);
    (split; [right; split; [cbn; rewrite !filter_app, Hras; reflexivity|reflexivity]|]);
    (split; [split; cbn; rewrite !filter_app, ?Hop, ?Hcl; reflexivity|]).
  all: split; [|first [discriminate | eauto]].
  all: first [left; exists texts; reflexivity | right; eauto].
Qed.

(** Every run of [extract_text_from_pdf], whatever the environment:
    its temporary directory, its rasterizer call, its file handles and
    the form of its result. *)
Lemma pdf_run_shape (p lang : str) :
  let q := os_path_normpath env p in
  exists s tr,
    extract_text_from_pdf env p lang = (PyValue s, tr) /\
    (filter is_tempdir tr = [] \/
     filter is_tempdir tr
     = (if is_ok (tempdir_enter env) then [EvTempDirEnter; EvTempDirExit]
        else [EvTempDirEnter])) /\
    (filter is_rasterize tr = [] \/
     (filter is_rasterize tr = [EvConvertFromPath q 300 None None (poppler_dir env)] /\
      os_path_exists env q = true /\
      os_path_exists env (poppler_dir env) = true /\
      exists k, k < max_retries /\ signature_seen env q k)) /\
    List.length (filter is_close tr) = opened env q (List.length (filter is_open tr)) /\
    (exists texts, s = join page_sep (page_blocks texts)) /\
    (is_ok (tempdir_exit env) = false -> s = empty_str).
Proof.
  intros q.
  unfold extract_text_from_pdf, run, extract_text_from_pdf_body, try_except.
  fold q. unfold bind at 1. unfold when.
  destruct (os_path_exists env q) eqn:Hex; cbn -[py range max_retries].
  2:{ do 2 eexists. split; [reflexivity|]. cbn.
      split; [auto|]. split; [auto|]. split; [reflexivity|].
      split; [exists []; reflexivity|auto]. }
  unfold bind at 1.
  destruct (retry_loop_guard q) as (sig & w1 & Heq & Hsig & Hcl & Hev).
  rewrite Heq.
  destruct (retry_events_calm _ Hev) as [Htmp Hocr].
  pose proof (retry_events_quiet _ Hev) as Hras.
  destruct Hsig as [-> | [-> Hseen]].
  { do 2 eexists. split; [reflexivity|].
    split; [auto|]. split; [auto|]. split; [exact Hcl|].
    split; [exists []; reflexivity|auto]. }
  unfold bind at 1, logger_debug at 1, emit at 1.
  match goal with
  | |- context [ocr_all_pages env q lang ?w0] =>
      destruct (ocr_all_pages_shape q lang w0)
        as (sig & w2 & evs & Heq2 & Htr2 & Htmp2 & Hras2 & [Hop2 Hcl2] & Hsig2 & Hexit)
  end.
  rewrite Heq2. cbn -[py] in Htr2.
  assert (Htd : filter is_tempdir (trace w2)
                = (if is_ok (tempdir_enter env)
                   then [EvTempDirEnter; EvTempDirExit] else [EvTempDirEnter])).
  { rewrite Htr2, !filter_app, Htmp, Htmp2. reflexivity. }
  assert (Hrs : filter is_rasterize (trace w2) = filter is_rasterize evs).
  { rewrite Htr2, !filter_app, Hras. reflexivity. }
  assert (Hcs : List.length (filter is_close (trace w2))
                = opened env q (List.length (filter is_open (trace w2)))).
  { rewrite Htr2, !filter_app, Hop2, Hcl2. cbn -[opened]. rewrite !app_nil_r.
    exact Hcl. }
  assert (Hguard : filter is_rasterize evs = [] \/
                   (filter is_rasterize evs
                    = [EvConvertFromPath q 300 None None (poppler_dir env)] /\
                    os_path_exists env q = true /\
                    os_path_exists env (poppler_dir env) = true /\
                    exists k, k < max_retries /\ signature_seen env q k)).
  { destruct Hras2 as [H | [H Hpop]]; [left; exact H|right].
    split; [exact H|]. split; [exact Hex|]. split; [exact Hpop|exact Hseen]. }
  rewrite Hex in Hguard.
  destruct Hsig2 as [[texts ->] | [e ->]].
  - do 2 eexists. split; [reflexivity|].
    split; [right; exact Htd|]. split; [rewrite Hrs; exact Hguard|].
    split; [exact Hcs|]. split; [exists texts; reflexivity|].
    intros Hbad. destruct (Hexit Hbad) as [e He]. discriminate.
  - unfold logger_error, emit, bind, return_. cbn -[py opened].
    do 2 eexists. split; [reflexivity|].
    split; [right; rewrite filter_app, Htd; cbn; rewrite app_nil_r; reflexivity|].
    split; [rewrite filter_app, Hrs; cbn; rewrite app_nil_r; exact Hguard|].
    split; [rewrite !filter_app; cbn -[opened]; rewrite !app_nil_r; exact Hcs|].
    split; [exists []; reflexivity|auto].
Qed.

(** X7. The temporary directory is removed on every way out of the
    block: in every run the directory events are none (the run ended
    before the block), or one enter followed by one exit; an enter
    without exit happens only when entering itself raised. *)
Theorem tempdir_always_left (p lang : str) :
  let tr := snd (extract_text_from_pdf env p lang) in
  filter is_tempdir tr = [] \/
  filter is_tempdir tr
  = (if is_ok (tempdir_enter env) then [EvTempDirEnter; EvTempDirExit]
     else [EvTempDirEnter]).
Proof.
  destruct (pdf_run_shape p lang) as (s & tr & Heq & Htmp & _).
  cbn zeta. rewrite Heq. exact Htmp.
Qed.

(** X8. When removing the temporary directory raises, the result is the
    empty string, also after every page was read: the text is dropped. *)
Theorem cleanup_failure_drops_text (p lang : str) (e : exn) :
  tempdir_exit env = Err e ->
  fst (extract_text_from_pdf env p lang) = PyValue empty_str.
Proof.
  intros Hexit.
  destruct (pdf_run_shape p lang) as (s & tr & Heq & _ & _ & _ & _ & Hdrop).
  rewrite Heq. cbn [fst]. rewrite Hdrop; [reflexivity|].
  rewrite Hexit. reflexivity.
Qed.

(** X9. The rasterizer is called at most once in a run, on the whole
    document at 300 DPI, and only when the file exists, some call of
    [open] gave a file whose first four bytes were read as [%PDF], and
    the poppler directory exists. *)
Theorem rasterizer_guarded (p lang : str) :
  let q := os_path_normpath env p in
  let tr := snd (extract_text_from_pdf env p lang) in
  filter is_rasterize tr = [] \/
  (filter is_rasterize tr = [EvConvertFromPath q 300 None None (poppler_dir env)] /\
   os_path_exists env q = true /\
   os_path_exists env (poppler_dir env) = true /\
   exists k, k < max_retries /\ signature_seen env q k).
Proof.
  destruct (pdf_run_shape p lang) as (s & tr & Heq & _ & Hras & _).
  cbn zeta. rewrite Heq. exact Hras.
Qed.

(** X10. No file handle is left open: in every run the number of
    [close] calls is the number of [open] calls that gave a file, also
    when the read raises, when the signature is wrong, and when closing
    itself raises. *)
Theorem opened_files_closed (p lang : str) :
  let q := os_path_normpath env p in
  let tr := snd (extract_text_from_pdf env p lang) in
  List.length (filter is_close tr) = opened env q (List.length (filter is_open tr)).
Proof.
  destruct (pdf_run_shape p lang) as (s & tr & Heq & _ & _ & Hcl & _).
  cbn zeta. rewrite Heq. exact Hcl.
Qed.

(** X11. In every environment the result is a join of page blocks
    numbered from 1 (of no block after a failure): it is empty or it
    starts with the header of page 1. *)
Theorem result_is_page_blocks (p lang : str) :
  exists s texts,
    fst (extract_text_from_pdf env p lang) = PyValue s /\
    s = join page_sep (page_blocks texts) /\
    (s = empty_str \/ exists rest, s = py "--- Seite 1 ---
" ++ rest).
Proof.
  destruct (pdf_run_shape p lang) as (s & tr & Heq & _ & _ & _ & [texts Hs] & _).
  exists s, texts. rewrite Heq. split; [reflexivity|]. split; [exact Hs|].
  rewrite Hs. destruct texts as [|t [|t2 texts]].
  - left. reflexivity.
  - right. exists t. reflexivity.
  - right. eexists. unfold page_blocks, enumerate.
    cbn [List.length seq combine map fst snd join].
    unfold page_block at 1. rewrite <- !app_assoc. reflexivity.
Qed.

Ltac ready_run :=
  repeat (cbn -[py str_of_nat bytes_eqb firstn];
          match goal with
          | H : builtin_open _ _ _ = _ |- _ => rewrite H
          | H : f_read_err _ = _ |- _ => rewrite H
          | H : f_close_err _ = _ |- _ => rewrite H
          | H : bytes_eqb _ _ = _ |- _ => rewrite H
          end);
  cbn -[py str_of_nat bytes_eqb firstn].

(** The readiness loop on a file that opens at call [k] and starts with
    [%PDF]: its calls, and one warning for each locked attempt. *)
Lemma retry_loop_ready (q : str) (k : nat) (f : File) :
  k < max_retries -> opens_at env q k f -> header f = pdf_magic ->
  exists w',
    for_in (range max_retries) tt (open_attempt env q) world0 = (Normal tt, w') /\
    calls (trace w') = ready_calls q k /\
    filter is_error (trace w') = [] /\
    List.length (filter is_warning (trace w')) = k /\
    filter is_grayscale (trace w') = [].
Proof.
  intros Hk (Hlocked & Hopen & Hread & Hclose) Hhdr.
  apply bytes_eqb_eq in Hhdr. unfold header in Hhdr.
  unfold range, max_retries, open_attempt, try_except, with_, open_rb, file_read,
    file_close, call, when, logger_error, logger_warning, time_sleep, emit, bind,
    pure, raise, return_, break_.
  destruct k as [|[|[|k]]]; [| | |unfold max_retries in Hk; lia].
  - ready_run. eexists. split; [reflexivity|]. repeat split; reflexivity.
  - destruct (Hlocked 0) as [e0 He0]; [lia|].
    ready_run. eexists. split; [reflexivity|]. repeat split; reflexivity.
  - destruct (Hlocked 0) as [e0 He0]; [lia|].
    destruct (Hlocked 1) as [e1 He1]; [lia|].
    ready_run. eexists. split; [reflexivity|]. repeat split; reflexivity.
Qed.

Lemma ocr_events_calls (evs : list event) :
  forallb ocr_event evs = true ->
  filter is_error evs = [] /\ filter is_warning evs = [].
Proof.
  induction evs as [|ev evs IH]; simpl; [auto|].
  intros H. apply andb_true_iff in H. destruct H as [Hev H].
  destruct (IH H) as [H1 H2].
  destruct ev as [l ? ?| | | | | | | | | |]; try destruct l; try discriminate;
    simpl; auto.
Qed.

(** The page loop on pages that all read: one grayscale conversion and
    one OCR call per page, in page order. *)
Lemma ocr_loop_calls (lang : str) (n : nat) (images : list Image) (texts : list str) :
  Forall2 (page_reads env lang) images texts ->
  forall (start : nat) (acc : list str) (w : World),
  exists w' evs,
    for_in (combine (seq start (List.length images)) images) acc
           (ocr_page env lang n) w =
    (Normal (acc ++ map (fun p => page_block (fst p) (snd p))
                        (combine (seq start (List.length texts)) texts)), w') /\
    trace w' = trace w ++ evs /\
    forallb ocr_event evs = true /\
    calls evs = page_calls lang (List.length images).
Proof.
  induction 1 as [|img t images texts (g & Hg & Ht) _ IH]; intros start acc w.
  - exists w, []. cbn. rewrite !app_nil_r. auto.
  - cbn [List.length seq combine for_in map fst snd].
    destruct (ocr_page env lang n (start, img) acc w) as [sig1 w1] eqn:Hstep.
    unfold_page_in Hstep. rewrite Hg in Hstep. cbn -[py str_of_nat] in Hstep.
    rewrite Ht in Hstep. cbn -[py str_of_nat] in Hstep.
    inversion Hstep; subst.
    match goal with
    | |- context [for_in _ ?a _ ?w0] =>
        destruct (IH (S start) a w0) as (w' & evs & Heq & Htr & Hev & Hcalls)
    end.
    rewrite Heq. exists w'. eexists.
    split; [rewrite <- app_assoc; reflexivity|].
    rewrite Htr. cbn -[py str_of_nat].
    split; [rewrite <- !app_assoc; reflexivity|].
    split; [cbn; exact Hev|].
    unfold calls in *. cbn -[py]. rewrite Hcalls. reflexivity.
Qed.

(** The page loop when the page after [pre] cannot be read: it raises
    there, and the pages behind it are not touched. *)
Lemma ocr_loop_fails (lang : str) (n : nat) (pre : list Image) (texts : list str)
      (img : Image) (post : list Image) :
  Forall2 (page_reads env lang) pre texts ->
  page_fails env lang img ->
  forall (start : nat) (acc : list str) (w : World),
  exists e w' evs,
    for_in (combine (seq start (List.length (pre ++ img :: post)))
                    (pre ++ img :: post)) acc
           (ocr_page env lang n) w = (Raised e, w') /\
    trace w' = trace w ++ evs /\
    forallb ocr_event evs = true /\
    List.length (filter is_grayscale evs) = List.length pre + 1.
Proof.
  intros Hpre Hfail.
  induction Hpre as [|im t pre texts (g & Hg & Ht) _ IH]; intros start acc w.
  - cbn [app List.length seq combine for_in].
    destruct (ocr_page env lang n (start, img) acc w) as [sig1 w1] eqn:Hstep.
    unfold_page_in Hstep.
    destruct Hfail as [[e He] | (g & e & Hg & He)].
    + rewrite He in Hstep. cbn -[py str_of_nat] in Hstep. inversion Hstep; subst.
      do 3 eexists. split; [reflexivity|]. cbn -[py str_of_nat].
      split; [rewrite <- !app_assoc; reflexivity|]. split; reflexivity.
    + rewrite Hg in Hstep. cbn -[py str_of_nat] in Hstep.
      rewrite He in Hstep. cbn -[py str_of_nat] in Hstep. inversion Hstep; subst.
      do 3 eexists. split; [reflexivity|]. cbn -[py str_of_nat].
      split; [rewrite <- !app_assoc; reflexivity|]. split; reflexivity.
  - cbn [app List.length seq combine for_in].
    destruct (ocr_page env lang n (start, im) acc w) as [sig1 w1] eqn:Hstep.
    unfold_page_in Hstep. rewrite Hg in Hstep. cbn -[py str_of_nat] in Hstep.
    rewrite Ht in Hstep. cbn -[py str_of_nat] in Hstep.
    inversion Hstep; subst.
    match goal with
    | |- context [for_in _ ?a _ ?w0] =>
        destruct (IH (S start) a w0) as (e & w' & evs & Heq & Htr & Hev & Hcount)
    end.
    rewrite Heq. exists e, w'. eexists.
    split; [reflexivity|].
    rewrite Htr. cbn -[py str_of_nat].
    split; [rewrite <- !app_assoc; reflexivity|].
    split; [cbn; exact Hev|].
    cbn -[py]. rewrite Hcount. reflexivity.
Qed.

Ltac enter_block q Hex Heq Hin Hpop Hconv :=
  unfold extract_text_from_pdf, run, extract_text_from_pdf_body, try_except;
  fold q; unfold bind at 1; unfold when; rewrite Hex;
  cbn -[py range max_retries];
  unfold bind at 1; rewrite Heq;
  unfold bind at 1, logger_debug at 1, emit at 1;
  unfold ocr_all_pages, with_, call, when, logger_error, logger_info, emit, bind,
    pure, raise, return_;
  rewrite Hin, Hpop, Hconv; cbn -[py str_of_nat enumerate join];
  unfold enumerate.

(** X12. The calls of a run on a valid document whose pages all read,
    in order: the readiness check (an [open] and a sleep of one second
    for each locked attempt, then open, read of 4 bytes, close), the
    temporary directory, one rasterizer call on the whole document at
    300 DPI, one grayscale conversion and one OCR call with the caller's
    language per page, the removal of the temporary directory.  The run
    logs no error record, and one warning record per locked attempt. *)
Theorem valid_run_calls (p lang : str) (images : list Image) (texts : list str) :
  valid_document env p images ->
  Forall2 (page_reads env lang) images texts ->
  let q := os_path_normpath env p in
  let tr := snd (extract_text_from_pdf env p lang) in
  exists k,
    k < max_retries /\
    calls tr
    = ready_calls q k
      ++ [EvTempDirEnter; EvConvertFromPath q 300 None None (poppler_dir env)]
      ++ page_calls lang (List.length images)
      ++ [EvTempDirExit] /\
    filter is_error tr = [] /\
    List.length (filter is_warning tr) = k.
Proof.
  intros (Hex & (k & f & Hk & Hopen & Hhdr) & Hpop & [d Hin] & Hout & Hconv) Hpages
         q tr.
  fold q in Hex, Hopen, Hconv.
  destruct (retry_loop_ready q k f Hk Hopen Hhdr)
    as (w1 & Heq & Hcalls & Herr & Hwarn & _).
  exists k. split; [exact Hk|]. subst tr.
  destruct (extract_text_from_pdf env p lang) as [r tr] eqn:Hrun.
  cbn [snd]. revert Hrun.
  enter_block q Hex Heq Hin Hpop Hconv.
  match goal with
  | |- context [for_in _ ?a (ocr_page env lang ?n) ?w0] =>
      destruct (ocr_loop_calls lang n images texts Hpages 0 a w0)
        as (w2 & evs & Heq2 & Htr2 & Hev & Hcalls2)
  end.
  unfold bind, pure, emit in Heq2. rewrite Heq2.
  cbn -[py str_of_nat join] in Htr2 |- *. rewrite Hout.
  cbn -[py str_of_nat join]. rewrite Htr2.
  intros Hrun. inversion Hrun; subst r tr. clear Hrun.
  destruct (ocr_events_calls evs Hev) as [Herr2 Hwarn2].
  unfold calls in *. split; [|split].
  - rewrite !filter_app, Hcalls, Hcalls2. cbn -[py]. rewrite <- !app_assoc. reflexivity.
  - rewrite !filter_app, Herr, Herr2. reflexivity.
  - rewrite !filter_app, Hwarn2, !length_app, Hwarn. cbn. lia.
Qed.

(** X13. When one page cannot be read (grayscale conversion or OCR
    raises), the whole run returns the empty string: the text of the
    pages read before is dropped, the pages behind are not processed,
    and the run ends on an error record. *)
Theorem page_failure_drops_all (p lang : str) (pre : list Image) (img : Image)
        (post : list Image) (texts : list str) :
  valid_document env p (pre ++ img :: post) ->
  Forall2 (page_reads env lang) pre texts ->
  page_fails env lang img ->
  let full := extract_text_from_pdf env p lang in
  fst full = PyValue empty_str /\
  List.length (filter is_grayscale (snd full)) = List.length pre + 1 /\
  last_level (snd full) = Some ERROR.
Proof.
  intros (Hex & (k & f & Hk & Hopen & Hhdr) & Hpop & [d Hin] & Hout & Hconv) Hpre
         Hfail full.
  set (q := os_path_normpath env p) in *.
  destruct (retry_loop_ready q k f Hk Hopen Hhdr) as (w1 & Heq & _ & _ & _ & Hgray).
  subst full.
  destruct (extract_text_from_pdf env p lang) as [r tr] eqn:Hrun.
  cbn [fst snd]. revert Hrun.
  enter_block q Hex Heq Hin Hpop Hconv.
  match goal with
  | |- context [for_in _ ?a (ocr_page env lang ?n) ?w0] =>
      destruct (ocr_loop_fails lang n pre texts img post Hpre Hfail 0 a w0)
        as (e & w2 & evs & Heq2 & Htr2 & Hev & Hcount)
  end.
  unfold bind, pure, emit in Heq2. rewrite Heq2.
  cbn -[py str_of_nat join] in Htr2 |- *. rewrite Hout.
  cbn -[py str_of_nat join]. rewrite Htr2.
  intros Hrun. inversion Hrun; subst r tr. clear Hrun.
  split; [reflexivity|]. split.
  - rewrite !filter_app, Hgray, !length_app, Hcount. cbn. lia.
  - rewrite last_level_app. reflexivity.
Qed.

End PdfFacts.

Lemma valid_run_calls_witness :
  exists k,
    k < max_retries /\
    calls (snd (extract_text_from_pdf Sample2.env_locked_then_pdf Sample.doc Sample.deu))
    = ready_calls Sample.doc k
      ++ [EvTempDirEnter;
          EvConvertFromPath Sample.doc 300 None None Sample.poppler;
          EvConvert (py "L"); EvImageToString Sample.deu empty_str;
          EvConvert (py "L"); EvImageToString Sample.deu empty_str;
          EvTempDirExit] /\
    filter is_error
           (snd (extract_text_from_pdf Sample2.env_locked_then_pdf Sample.doc
                                       Sample.deu))
    = [] /\
    List.length
      (filter is_warning
              (snd (extract_text_from_pdf Sample2.env_locked_then_pdf Sample.doc
                                          Sample.deu)))
    = k.
Proof.
  apply (valid_run_calls Sample2.env_locked_then_pdf Sample.doc Sample.deu
           [Sample.invoice; Sample.receipt] [Sample.invoice; Sample.receipt]).
  - split; [reflexivity|].
    split.
    { exists 1, (Sample.file_of Sample.pdf_bytes).
      split; [unfold max_retries; lia|].
      split; [|reflexivity].
      split; [intros j Hj; assert (j = 0) as -> by lia; eexists; reflexivity|].
      split; [reflexivity|split; reflexivity]. }
    split; [reflexivity|].
    split; [eexists; reflexivity|].
    split; reflexivity.
  - repeat constructor; eexists; split; reflexivity.
Defined.

Lemma page_failure_drops_all_witness :
  fst (extract_text_from_pdf (Sample2.with_ocr_error Sample.receipt Sample.env_two)
                             Sample.doc Sample.deu)
  = PyValue empty_str /\
  List.length
    (filter is_grayscale
            (snd (extract_text_from_pdf
                    (Sample2.with_ocr_error Sample.receipt Sample.env_two)
                    Sample.doc Sample.deu)))
  = 2.
Proof.
  destruct (page_failure_drops_all
              (Sample2.with_ocr_error Sample.receipt Sample.env_two)
              Sample.doc Sample.deu [Sample.invoice] Sample.receipt []
              [Sample.invoice])
    as (Hres & Hcount & _).
  - split; [reflexivity|].
    split.
    { exists 0, (Sample.file_of Sample.pdf_bytes).
      split; [unfold max_retries; lia|].
      split; [|reflexivity].
      split; [intros j Hj; lia|].
      split; [reflexivity|split; reflexivity]. }
    split; [reflexivity|].
    split; [eexists; reflexivity|].
    split; reflexivity.
  - repeat constructor. eexists. split; reflexivity.
  - right. exists Sample.receipt, Sample2.boom. split; reflexivity.
  - split; [exact Hres|exact Hcount].
Defined.

Lemma cleanup_failure_drops_text_witness :
  fst (extract_text_from_pdf (Sample2.with_cleanup_error Sample.env_two)
                             Sample.doc Sample.deu)
  = PyValue empty_str /\
  filter is_ocr
         (snd (extract_text_from_pdf (Sample2.with_cleanup_error Sample.env_two)
                                     Sample.doc Sample.deu))
  = [EvImageToString Sample.deu empty_str; EvImageToString Sample.deu empty_str].
Proof.
  split; [|reflexivity].
  exact (cleanup_failure_drops_text (Sample2.with_cleanup_error Sample.env_two)
           Sample.doc Sample.deu Sample2.boom eq_refl).
Defined.
